(** * FocusAI backend: relevance classifier, session accrual, summary

    A shallow embedding of [main.py] and [schemas.py] and the proofs of the
    properties the specification states about them.

    Conventions of the embedding.
    - A Python [str] is a [string]; each character is read as the code point
      of the same number (U+0000..U+00FF), a range closed under
      [str.lower()] and on which [str.lower()] works character by character.
    - A Python [int] is a [Z].
    - [datetime.now(timezone.utc)] is an input of the handler that reads it.
    - A handler is a computation over the document store which either
      returns a value or raises; the store it leaves behind is the one at
      the point where it returned or raised. *)

From Stdlib Require Import ZArith NArith List Bool Ascii String Lia.
Import ListNotations.

Open Scope string_scope.
Open Scope list_scope.

(** ** Python strings *)

Module PyStr.

Definition code (c : ascii) : N := N_of_ascii c.

(** Characters with a lowercase mapping: A-Z, and U+00C0..U+00DE except the
    multiplication sign U+00D7. *)
Definition has_lower (c : ascii) : bool :=
  let n := code c in
  ((65 <=? n) && (n <=? 90) ||
   (192 <=? n) && (n <=? 222) && negb (n =? 215))%N.

Definition lower_char (c : ascii) : ascii :=
  if has_lower c then ascii_of_N (code c + 32) else c.

(** [s.lower()] *)
Fixpoint lower (s : string) : string :=
  match s with
  | EmptyString => EmptyString
  | String c s' => String (lower_char c) (lower s')
  end.

(** [c.isspace()]: the separators of [s.split()]. *)
Definition isspace (c : ascii) : bool :=
  let n := code c in
  ((9 <=? n) && (n <=? 13) || (28 <=? n) && (n <=? 31) ||
   (n =? 32) || (n =? 133) || (n =? 160))%N.

Definition is_empty (s : string) : bool :=
  match s with EmptyString => true | String _ _ => false end.

(** [s.split()]: maximal runs of characters that are not whitespace.
    [cur] is the run read so far. *)
Fixpoint split_from (cur s : string) : list string :=
  match s with
  | EmptyString => if is_empty cur then [] else [cur]
  | String c s' =>
      if isspace c then
        if is_empty cur then split_from EmptyString s'
        else cur :: split_from EmptyString s'
      else split_from (cur ++ String c EmptyString) s'
  end.

Definition split (s : string) : list string := split_from EmptyString s.

(** [sep.join(parts)] *)
Fixpoint join (sep : string) (parts : list string) : string :=
  match parts with
  | [] => EmptyString
  | [p] => p
  | p :: rest => p ++ sep ++ join sep rest
  end.

(** [sub in s] *)
Fixpoint contains (sub s : string) : bool :=
  prefix sub s ||
  match s with
  | EmptyString => false
  | String _ s' => contains sub s'
  end.

(** [o or ""] for an optional string. *)
Definition or_empty (o : option string) : string :=
  match o with
  | Some s => s
  | None => EmptyString
  end.

End PyStr.

Import PyStr.

(** ** The relevance heuristic ([main.py], lines 78-96) *)

(** The dict literal, in declaration order. *)
Definition BLOCKLIST_KEYWORDS : list (string * list string) :=
  [ ("social", ["twitter"; "x.com"; "facebook"; "instagram"; "tiktok"; "reddit"]);
    ("nsfw", ["porn"; "nsfw"; "xxx"]);
    ("games", ["steam"; "epicgames"; "roblox"; "league of legends"; "valorant"]) ].

(** [d.get(key, [])] *)
Fixpoint dict_get (d : list (string * list string)) (key : string) : list string :=
  match d with
  | [] => []
  | (k, v) :: d' => if String.eqb k key then v else dict_get d' key
  end.

(** [text] of [classify_relevance]. *)
Definition blob (goal : string) (title url : option string) : string :=
  join " " [lower goal; lower (or_empty title); lower (or_empty url)].

(** The inner loop: the first keyword of the list that occurs in [text]. *)
Definition first_keyword (kws : list string) (text : string) : option string :=
  find (fun kw => contains kw text) kws.

(** The two nested loops: the categories in the order of the argument, the
    keywords of each in the order of the table; the first hit returns. *)
Fixpoint blocked_match (categories : list string) (text : string)
  : option (string * string) :=
  match categories with
  | [] => None
  | cat :: rest =>
      match first_keyword (dict_get BLOCKLIST_KEYWORDS cat) text with
      | Some kw => Some (cat, kw)
      | None => blocked_match rest text
      end
  end.

Definition matched_reason (kw cat : string) : string :=
  "Matched blocked keyword '" ++ kw ++ "' in category '" ++ cat ++ "'".

Definition goal_reason : string := "Goal keywords found in current context".
Definition default_reason : string := "No blocklisted signals detected".

Definition goal_words (goal : string) : list string :=
  filter (fun w => (3 <? String.length w)%nat) (split (lower goal)).

Definition classify_relevance (goal : string) (title url : option string)
    (categories : list string) : string * string :=
  let text := blob goal title url in
  match blocked_match categories text with
  | Some (cat, kw) => ("irrelevant", matched_reason kw cat)
  | None =>
      if existsb (fun w => contains w text) (goal_words goal)
      then ("relevant", goal_reason)
      else ("relevant", default_reason)
  end.

(** No keyword of an enabled category occurs in [text]. *)
Definition no_blocked_keyword (categories : list string) (text : string) : Prop :=
  forall cat kw,
    In cat categories -> In kw (dict_get BLOCKLIST_KEYWORDS cat) ->
    contains kw text = false.

(** The pairs the two loops visit, in the order they visit them. *)
Definition enabled_pairs (categories : list string) : list (string * string) :=
  flat_map (fun cat => map (pair cat) (dict_get BLOCKLIST_KEYWORDS cat))
    categories.

(** The order the specification words: the rows of the table in declaration
    order, a row taking part when the session enables its category; the
    keywords of a row in declaration order. *)
Fixpoint table_order_match (table : list (string * list string))
    (categories : list string) (text : string) : option (string * string) :=
  match table with
  | [] => None
  | (cat, kws) :: table' =>
      if existsb (String.eqb cat) categories then
        match first_keyword kws text with
        | Some kw => Some (cat, kw)
        | None => table_order_match table' categories text
        end
      else table_order_match table' categories text
  end.

(** ** Errors and the handler monad *)

Definition datetime := Z.

Inductive Error : Type :=
| HTTPException (status_code : Z) (detail : string)
| ValidationError (model : string) (fields : list string)
| InvalidId (oid : string).

(** ** bson.ObjectId

    An identifier is the byte string [ObjectId.binary].  The constructor
    takes a [str]: it must have 24 characters and [bytes.fromhex] must
    accept it, otherwise [InvalidId] is raised. *)

Definition ObjectId := string.

Definition hex_value (c : ascii) : option N :=
  let n := code c in
  if ((48 <=? n) && (n <=? 57))%N then Some (n - 48)%N
  else if ((97 <=? n) && (n <=? 102))%N then Some (n - 87)%N
  else if ((65 <=? n) && (n <=? 70))%N then Some (n - 55)%N
  else None.

(** [Py_ISSPACE], the whitespace [bytes.fromhex] skips between two bytes. *)
Definition is_ascii_space (c : ascii) : bool :=
  let n := code c in ((9 <=? n) && (n <=? 13) || (n =? 32))%N.

Fixpoint fromhex (s : string) : option string :=
  match s with
  | EmptyString => Some EmptyString
  | String c s' =>
      if is_ascii_space c then fromhex s'
      else
        match hex_value c, s' with
        | Some hi, String d s'' =>
            match hex_value d with
            | Some lo =>
                option_map (String (ascii_of_N (16 * hi + lo))) (fromhex s'')
            | None => None
            end
        | _, _ => None
        end
  end.

Definition ObjectId_of_str (oid : string) : Error + ObjectId :=
  if (String.length oid =? 24)%nat then
    match fromhex oid with
    | Some b => inr b
    | None => inl (InvalidId oid)
    end
  else inl (InvalidId oid).

Definition hex_digit (n : N) : ascii :=
  if (n <? 10)%N then ascii_of_N (48 + n) else ascii_of_N (87 + n).

(** [str(oid)]: two lowercase hexadecimal digits per byte. *)
Fixpoint ObjectId_str (b : ObjectId) : string :=
  match b with
  | EmptyString => EmptyString
  | String c b' =>
      String (hex_digit (code c / 16)) (String (hex_digit (code c mod 16))
        (ObjectId_str b'))
  end.

(** ** The models of [schemas.py] *)

Module User.
Record t : Type := mk {
  name : option string;
  email : option string;
  device_id : string;
  voice : option string
}.
End User.

Definition is_literal (allowed : list string) (v : string) : bool :=
  existsb (String.eqb v) allowed.

Module Session.
Record t : Type := mk {
  user_id : string;
  goal : string;
  duration_minutes : Z;
  categories : list string;
  voice : option string;
  started_at : option datetime;
  ended_at : option datetime;
  total_focus_seconds : Z;
  total_idle_seconds : Z;
  distractions_blocked : Z;
  status : string
}.

(** [Field(..., ge=1, le=480)] *)
Definition duration_ok (d : Z) : bool := ((1 <=? d) && (d <=? 480))%Z.

(** The checks the constructor runs; the list names the fields that fail. *)
Definition errors (s : t) : list string :=
  (if duration_ok (duration_minutes s) then [] else ["duration_minutes"]) ++
  (if is_literal ["active"; "ended"] (status s) then [] else ["status"]).

Definition validate (s : t) : Error + t :=
  match errors s with
  | [] => inr s
  | fs => inl (ValidationError "Session" fs)
  end.
End Session.

Module ActivityEvent.
Record t : Type := mk {
  session_id : string;
  user_id : string;
  timestamp : datetime;
  device : option string;
  app : option string;
  url : option string;
  title : option string;
  idle : bool;
  decision : option string;
  reason : option string
}.

Definition errors (e : t) : list string :=
  match decision e with
  | None => []
  | Some d => if is_literal ["relevant"; "irrelevant"] d then [] else ["decision"]
  end.

Definition validate (e : t) : Error + t :=
  match errors e with
  | [] => inr e
  | fs => inl (ValidationError "ActivityEvent" fs)
  end.
End ActivityEvent.

(** ** The request models of [main.py] *)

Module StartSessionRequest.
Record t : Type := mk {
  user_id : string;
  goal : string;
  duration_minutes : Z;
  categories : list string;
  voice : option string
}.
End StartSessionRequest.

Module UpdateActivityRequest.
Record t : Type := mk {
  session_id : string;
  user_id : string;
  app : option string;
  url : option string;
  title : option string;
  idle : bool
}.
End UpdateActivityRequest.

Module EndSessionRequest.
Record t : Type := mk { session_id : string }.
End EndSessionRequest.

(** ** The document store *)

(** A document of the [session] collection: the fields of the model it was
    created from, the identifier, and the stamp [update_activity] sets. *)
Record SessionDoc : Type := mkSessionDoc {
  _id : ObjectId;
  fields : Session.t;
  updated_at : option datetime
}.

Record Store : Type := mkStore {
  db_user : list (ObjectId * User.t);
  db_session : list SessionDoc;
  db_activityevent : list (ObjectId * ActivityEvent.t);
  next_oid : N
}.

Definition empty_store : Store := mkStore [] [] [] 0.

Definition M (A : Type) : Type := Store -> (Error + A) * Store.

Definition ret {A} (a : A) : M A := fun db => (inr a, db).

Definition raise {A} (e : Error) : M A := fun db => (inl e, db).

Definition bind {A B} (c : M A) (k : A -> M B) : M B :=
  fun db =>
    match c db with
    | (inr a, db') => k a db'
    | (inl e, db') => (inl e, db')
    end.

(** A constructor that may raise. *)
Definition lift {A} (r : Error + A) : M A :=
  match r with
  | inr a => ret a
  | inl e => raise e
  end.

Notation "x <- c ;; k" := (bind c (fun x => k))
  (at level 61, c at next level, right associativity).

(** *** pymongo on the [session] collection *)

Module Key.
Inductive counter : Type :=
| total_focus_seconds
| total_idle_seconds
| distractions_blocked.

Inductive assignment : Type :=
| status (v : string)
| ended_at (v : datetime)
| updated_at (v : datetime).
End Key.

(** The update document [{"$inc": ..., "$set": ...}]. *)
Record Update : Type := mkUpdate {
  inc : list (Key.counter * Z);
  set : list Key.assignment
}.

Definition apply_inc (d : SessionDoc) (ka : Key.counter * Z) : SessionDoc :=
  let s := fields d in
  let bump (k : Key.counter) (v : Z) : Z :=
    match k, fst ka with
    | Key.total_focus_seconds, Key.total_focus_seconds
    | Key.total_idle_seconds, Key.total_idle_seconds
    | Key.distractions_blocked, Key.distractions_blocked => (v + snd ka)%Z
    | _, _ => v
    end in
  mkSessionDoc (_id d)
    (Session.mk (Session.user_id s) (Session.goal s)
       (Session.duration_minutes s) (Session.categories s) (Session.voice s)
       (Session.started_at s) (Session.ended_at s)
       (bump Key.total_focus_seconds (Session.total_focus_seconds s))
       (bump Key.total_idle_seconds (Session.total_idle_seconds s))
       (bump Key.distractions_blocked (Session.distractions_blocked s))
       (Session.status s))
    (updated_at d).

Definition apply_set (d : SessionDoc) (a : Key.assignment) : SessionDoc :=
  let s := fields d in
  match a with
  | Key.status v =>
      mkSessionDoc (_id d)
        (Session.mk (Session.user_id s) (Session.goal s)
           (Session.duration_minutes s) (Session.categories s)
           (Session.voice s) (Session.started_at s) (Session.ended_at s)
           (Session.total_focus_seconds s) (Session.total_idle_seconds s)
           (Session.distractions_blocked s) v)
        (updated_at d)
  | Key.ended_at v =>
      mkSessionDoc (_id d)
        (Session.mk (Session.user_id s) (Session.goal s)
           (Session.duration_minutes s) (Session.categories s)
           (Session.voice s) (Session.started_at s) (Some v)
           (Session.total_focus_seconds s) (Session.total_idle_seconds s)
           (Session.distractions_blocked s) (Session.status s))
        (updated_at d)
  | Key.updated_at v => mkSessionDoc (_id d) (fields d) (Some v)
  end.

Definition apply_update (u : Update) (d : SessionDoc) : SessionDoc :=
  fold_left apply_set (set u) (fold_left apply_inc (inc u) d).

Definition has_id (oid : ObjectId) (d : SessionDoc) : bool :=
  String.eqb (_id d) oid.

(** [list(db["session"].find({"_id": oid}))] *)
Definition session_find (oid : ObjectId) : M (list SessionDoc) :=
  fun db => (inr (filter (has_id oid) (db_session db)), db).

(** The first document with the identifier is the one updated. *)
Fixpoint update_first (oid : ObjectId) (u : Update) (docs : list SessionDoc)
  : list SessionDoc :=
  match docs with
  | [] => []
  | d :: rest =>
      if has_id oid d then apply_update u d :: rest
      else d :: update_first oid u rest
  end.

(** [db["session"].update_one({"_id": oid}, u)]; the value is
    [matched_count]. *)
Definition session_update_one (oid : ObjectId) (u : Update) : M Z :=
  fun db =>
    (inr (if existsb (has_id oid) (db_session db) then 1%Z else 0%Z),
     mkStore (db_user db) (update_first oid u (db_session db))
       (db_activityevent db) (next_oid db)).

(** *** The persistence gateway ([database.py]) *)

Module Coll.
Inductive t : Type := user | session | activityevent.

Definition model (c : t) : Type :=
  match c with
  | user => User.t
  | session => Session.t
  | activityevent => ActivityEvent.t
  end.
End Coll.

(** Big-endian bytes of a number, [len] of them. *)
Fixpoint be_bytes (len : nat) (n : N) : string :=
  match len with
  | O => EmptyString
  | S k => be_bytes k (n / 256) ++ String (ascii_of_N (n mod 256)) EmptyString
  end.

(** Modelled from the spec: the identifier the store generates for a new
    document ([database.py] and the store behind it are missing from the
    source tree).  Section 6 of the specification: documents are
    keyed by a store-generated unique identifier; here the next value of a
    counter, as 12 bytes. *)
Definition fresh_oid (db : Store) : ObjectId := be_bytes 12 (next_oid db).

Arguments fresh_oid : simpl never.

(** Modelled from the spec: [create_document] of [database.py], which is
    missing from the source tree.  Sections 2 and 6 of the
    specification: a create operation over a named collection; the document
    stored has the field set of the entity plus the identifier; the
    identifier goes back to the caller as a string. *)
Definition create_document (c : Coll.t) : Coll.model c -> M string :=
  match c return Coll.model c -> M string with
  | Coll.user => fun data db =>
      (inr (ObjectId_str (fresh_oid db)),
       mkStore (db_user db ++ [(fresh_oid db, data)]) (db_session db)
         (db_activityevent db) (N.succ (next_oid db)))
  | Coll.session => fun data db =>
      (inr (ObjectId_str (fresh_oid db)),
       mkStore (db_user db)
         (db_session db ++ [mkSessionDoc (fresh_oid db) data None])
         (db_activityevent db) (N.succ (next_oid db)))
  | Coll.activityevent => fun data db =>
      (inr (ObjectId_str (fresh_oid db)),
       mkStore (db_user db) (db_session db)
         (db_activityevent db ++ [(fresh_oid db, data)])
         (N.succ (next_oid db)))
  end.

(** Modelled from the spec: [get_documents] of [database.py], which is
    missing from the source tree, at the one use [main.py] makes of it:
    collection [session], filter [{"user_id": user_id}].  Section 4.3 of the
    specification: reads up to a bounded number of the sessions of the
    user, in no specified order; here the first [limit] in store order. *)
Definition get_documents (user_id : string) (limit : nat) : M (list SessionDoc) :=
  fun db =>
    (inr (firstn limit
            (filter (fun d => String.eqb (Session.user_id (fields d)) user_id)
               (db_session db))),
     db).

(** The document a request with this [session_id] works on: the first one
    of the collection whose identifier the string denotes. *)
Definition session_for (session_id : string) (db : Store) : option SessionDoc :=
  match ObjectId_of_str session_id with
  | inr oid => List.find (has_id oid) (db_session db)
  | inl _ => None
  end.

(** How a session document may differ from an earlier state of itself. *)
Definition evolves (d d' : SessionDoc) : Prop :=
  _id d' = _id d /\
  (Session.total_focus_seconds (fields d)
   <= Session.total_focus_seconds (fields d'))%Z /\
  (Session.total_idle_seconds (fields d)
   <= Session.total_idle_seconds (fields d'))%Z /\
  (Session.distractions_blocked (fields d)
   <= Session.distractions_blocked (fields d'))%Z /\
  (Session.status (fields d) = "ended" -> Session.status (fields d') = "ended") /\
  (Session.status (fields d') = Session.status (fields d) \/
   Session.status (fields d') = "ended").

(** ** The endpoints ([main.py], lines 99-176) *)

Definition register_user (user : User.t) : M string :=
  user_id <- create_document Coll.user user ;;
  ret user_id.

(** [v or "Cluely"] *)
Definition or_Cluely (v : option string) : string :=
  match v with
  | Some s => if is_empty s then "Cluely" else s
  | None => "Cluely"
  end.

Definition start_session (now : datetime) (payload : StartSessionRequest.t)
  : M (string * string) :=
  session <- lift (Session.validate
    (Session.mk
       (StartSessionRequest.user_id payload)
       (StartSessionRequest.goal payload)
       (StartSessionRequest.duration_minutes payload)
       (StartSessionRequest.categories payload)
       (Some (or_Cluely (StartSessionRequest.voice payload)))
       (Some now) None 0 0 0 "active")) ;;
  session_id <- create_document Coll.session session ;;
  ret (session_id, Session.status session).

Definition update_activity (now : datetime) (payload : UpdateActivityRequest.t)
  : M (string * string) :=
  oid <- lift (ObjectId_of_str (UpdateActivityRequest.session_id payload)) ;;
  sdocs <- session_find oid ;;
  match sdocs with
  | [] => raise (HTTPException 404 "Session not found")
  | sdoc :: _ =>
      let '(decision, reason) :=
        classify_relevance (Session.goal (fields sdoc))
          (UpdateActivityRequest.title payload)
          (UpdateActivityRequest.url payload)
          (Session.categories (fields sdoc)) in
      event <- lift (ActivityEvent.validate
        (ActivityEvent.mk
           (UpdateActivityRequest.session_id payload)
           (UpdateActivityRequest.user_id payload)
           now
           (Some "web")
           (UpdateActivityRequest.app payload)
           (UpdateActivityRequest.url payload)
           (UpdateActivityRequest.title payload)
           (UpdateActivityRequest.idle payload)
           (Some decision)
           (Some reason))) ;;
      _ <- create_document Coll.activityevent event ;;
      let inc :=
        if String.eqb decision "irrelevant"
        then [(Key.distractions_blocked, 1%Z)]
        else [(Key.total_focus_seconds, 30%Z)] in
      oid' <- lift (ObjectId_of_str (UpdateActivityRequest.session_id payload)) ;;
      _ <- session_update_one oid' (mkUpdate inc [Key.updated_at now]) ;;
      ret (decision, reason)
  end.

Definition end_session (now : datetime) (payload : EndSessionRequest.t)
  : M string :=
  oid <- lift (ObjectId_of_str (EndSessionRequest.session_id payload)) ;;
  matched_count <- session_update_one oid (mkUpdate [] [Key.status "ended"; Key.ended_at now]) ;;
  if (matched_count =? 0)%Z
  then raise (HTTPException 404 "Session not found")
  else ret "ended".

Module Summary.
Record t : Type := mk {
  sessions : Z;
  total_focus_seconds : Z;
  total_idle_seconds : Z;
  distractions_blocked : Z;
  streak_days : Z
}.
End Summary.

(** [sum(...)] *)
Definition sum (l : list Z) : Z := fold_left Z.add l 0%Z.

(** [len(...)] *)
Definition len {A} (l : list A) : Z := Z.of_nat (List.length l).

Definition session_summary (user_id : string) : M Summary.t :=
  sessions <- get_documents user_id 50 ;;
  let total_focus := sum (map (fun s => Session.total_focus_seconds (fields s)) sessions) in
  let total_idle := sum (map (fun s => Session.total_idle_seconds (fields s)) sessions) in
  let distractions := sum (map (fun s => Session.distractions_blocked (fields s)) sessions) in
  ret (Summary.mk (len sessions) total_focus total_idle distractions
         (Z.min (len sessions) 7)).

(** The update document [update_activity] sends for a decision. *)
Definition accrual_update (decision : string) (now : datetime) : Update :=
  mkUpdate
    (if String.eqb decision "irrelevant"
     then [(Key.distractions_blocked, 1%Z)]
     else [(Key.total_focus_seconds, 30%Z)])
    [Key.updated_at now].

(** The update document [end_session] sends. *)
Definition end_update (now : datetime) : Update :=
  mkUpdate [] [Key.status "ended"; Key.ended_at now].

(** The store a successful [update_activity] leaves: one more event, the
    first document with the identifier updated. *)
Definition after_activity (now : datetime) (payload : UpdateActivityRequest.t)
    (oid : ObjectId) (decision reason : string) (db : Store) : Store :=
  mkStore (db_user db)
    (update_first oid (accrual_update decision now) (db_session db))
    (db_activityevent db ++
       [(fresh_oid db,
         ActivityEvent.mk
           (UpdateActivityRequest.session_id payload)
           (UpdateActivityRequest.user_id payload)
           now (Some "web")
           (UpdateActivityRequest.app payload)
           (UpdateActivityRequest.url payload)
           (UpdateActivityRequest.title payload)
           (UpdateActivityRequest.idle payload)
           (Some decision) (Some reason))])
    (N.succ (next_oid db)).

(** ** Requests and runs *)

Inductive Request : Type :=
| RegisterUser (user : User.t)
| StartSession (now : datetime) (payload : StartSessionRequest.t)
| Activity (now : datetime) (payload : UpdateActivityRequest.t)
| EndSession (now : datetime) (payload : EndSessionRequest.t)
| GetSummary (user_id : string).

(** The store a request leaves behind, whether it returned or raised. *)
Definition handle (db : Store) (r : Request) : Store :=
  match r with
  | RegisterUser user => snd (register_user user db)
  | StartSession now payload => snd (start_session now payload db)
  | Activity now payload => snd (update_activity now payload db)
  | EndSession now payload => snd (end_session now payload db)
  | GetSummary user_id => snd (session_summary user_id db)
  end.

Definition run (reqs : list Request) (db : Store) : Store :=
  fold_left handle reqs db.

(** ** Sample data *)

Definition sample_start : StartSessionRequest.t :=
  StartSessionRequest.mk "u1" "finish report" 25 ["social"] None.

(** The store after one accepted [start_session] on the empty store. *)
Definition sample_db : Store := snd (start_session 1000%Z sample_start empty_store).

Definition sample_sid : string := "000000000000000000000000".

Definition sample_distraction : UpdateActivityRequest.t :=
  UpdateActivityRequest.mk sample_sid "u1" None None (Some "Twitter feed") true.

Definition sample_work : UpdateActivityRequest.t :=
  UpdateActivityRequest.mk sample_sid "u1" (Some "editor") None
    (Some "Quarterly report - draft") false.

Definition sample_end : EndSessionRequest.t := EndSessionRequest.mk sample_sid.

(** A store with two sessions of user "u1" and one of user "u2". *)
Definition sample_summary_db : Store :=
  mkStore []
    [ mkSessionDoc (be_bytes 12 0)
        (Session.mk "u1" "read" 30 [] (Some "Cluely") (Some 10%Z) (Some 20%Z)
           60 0 1 "ended") None;
      mkSessionDoc (be_bytes 12 1)
        (Session.mk "u2" "walk" 30 [] (Some "Cluely") (Some 10%Z) None
           30 0 5 "active") None;
      mkSessionDoc (be_bytes 12 2)
        (Session.mk "u1" "write" 45 [] (Some "Cluely") (Some 30%Z) (Some 40%Z)
           90 0 2 "ended") None ]
    [] 3.

(** ** Further notions used in the properties *)

(** [cat in BLOCKLIST_KEYWORDS] *)
Definition known_category (cat : string) : bool :=
  existsb (fun kv => String.eqb (fst kv) cat) BLOCKLIST_KEYWORDS.

(** The document [start_session] hands to [create_document], as stored. *)
Definition new_session_doc (now : datetime) (payload : StartSessionRequest.t)
    (db : Store) : SessionDoc :=
  mkSessionDoc (fresh_oid db)
    (Session.mk
       (StartSessionRequest.user_id payload)
       (StartSessionRequest.goal payload)
       (StartSessionRequest.duration_minutes payload)
       (StartSessionRequest.categories payload)
       (Some (or_Cluely (StartSessionRequest.voice payload)))
       (Some now) None 0 0 0 "active")
    None.

(** The fields of a session document that no update document of [main.py]
    names. *)
Definition same_fixed_fields (d d' : SessionDoc) : Prop :=
  _id d' = _id d /\
  Session.user_id (fields d') = Session.user_id (fields d) /\
  Session.goal (fields d') = Session.goal (fields d) /\
  Session.duration_minutes (fields d') = Session.duration_minutes (fields d) /\
  Session.categories (fields d') = Session.categories (fields d) /\
  Session.voice (fields d') = Session.voice (fields d) /\
  Session.started_at (fields d') = Session.started_at (fields d).

(** What holds of the session documents the handlers make and update: the
    checks of the model still pass, the counters are what sums of the two
    increments can be, and the end stamp goes with the status. *)
Definition well_kept (d : SessionDoc) : Prop :=
  Session.errors (fields d) = [] /\
  (0 <= Session.total_focus_seconds (fields d))%Z /\
  (Session.total_focus_seconds (fields d) mod 30 = 0)%Z /\
  Session.total_idle_seconds (fields d) = 0%Z /\
  (0 <= Session.distractions_blocked (fields d))%Z /\
  (Session.status (fields d) = "ended" <-> Session.ended_at (fields d) <> None) /\
  Session.started_at (fields d) <> None /\
  (exists v, Session.voice (fields d) = Some v /\ v <> "").

(** What holds of the events [update_activity] stores. *)
Definition well_logged (e : ActivityEvent.t) : Prop :=
  ActivityEvent.device e = Some "web" /\
  (ActivityEvent.decision e = Some "relevant" \/
   ActivityEvent.decision e = Some "irrelevant") /\
  ActivityEvent.reason e <> None.

(** [{"user_id": user_id}] as a test on a session document. *)
Definition owned_by (user_id : string) (d : SessionDoc) : bool :=
  String.eqb (Session.user_id (fields d)) user_id.

(** ** The diagnostic endpoint ([main.py], lines 26-56)

    Its messages use characters beyond U+00FF, and it cuts the text of an
    exception to 50 characters; a [str] is here the list of its code
    points. *)

Module Unicode.
Definition str : Type := list N.

Fixpoint of_string (s : string) : str :=
  match s with
  | EmptyString => []
  | String c s' => code c :: of_string s'
  end.

(** U+2705, U+274C and U+26A0 U+FE0F. *)
Definition check_mark : str := [9989%N].
Definition cross_mark : str := [10060%N].
Definition warning_sign : str := [9888%N; 65039%N].
End Unicode.

(** The handle [db] of the module [database], which is missing from the
    source tree, is an argument of the endpoint: [None], or an object of
    which the endpoint uses the attribute [name] and the method
    [list_collection_names]; either may raise, and the attribute may be
    absent. *)
Module Database.
Inductive attribute : Type :=
| Missing
| Raises (message : Unicode.str)
| Has (value : Unicode.str).

Record t : Type := mk {
  name : attribute;
  list_collection_names : Unicode.str + list Unicode.str
}.
End Database.

Module Diagnostic.
Record t : Type := mk {
  backend : Unicode.str;
  database : Unicode.str;
  database_url : option Unicode.str;
  database_name : option Unicode.str;
  connection_status : Unicode.str;
  collections : list Unicode.str
}.

Inductive key : Type :=
| Kdatabase (v : Unicode.str)
| Kdatabase_url (v : Unicode.str)
| Kdatabase_name (v : Unicode.str)
| Kconnection_status (v : Unicode.str)
| Kcollections (v : list Unicode.str).

(** [response[key] = v] *)
Definition setitem (k : key) (r : t) : t :=
  match k with
  | Kdatabase v =>
      mk (backend r) v (database_url r) (database_name r)
        (connection_status r) (collections r)
  | Kdatabase_url v =>
      mk (backend r) (database r) (Some v) (database_name r)
        (connection_status r) (collections r)
  | Kdatabase_name v =>
      mk (backend r) (database r) (database_url r) (Some v)
        (connection_status r) (collections r)
  | Kconnection_status v =>
      mk (backend r) (database r) (database_url r) (database_name r) v
        (collections r)
  | Kcollections v =>
      mk (backend r) (database r) (database_url r) (database_name r)
        (connection_status r) v
  end.
End Diagnostic.

(** Statements over the response being built; an exception carries
    [str(e)]. *)
Definition R (A : Type) : Type :=
  Diagnostic.t -> (Unicode.str + A) * Diagnostic.t.

Definition rret {A} (a : A) : R A := fun r => (inr a, r).

Definition rraise {A} (e : Unicode.str) : R A := fun r => (inl e, r).

Definition rbind {A B} (c : R A) (k : A -> R B) : R B :=
  fun r =>
    match c r with
    | (inr a, r') => k a r'
    | (inl e, r') => (inl e, r')
    end.

Notation "x <~ c ;; k" := (rbind c (fun x => k))
  (at level 61, c at next level, right associativity).

Definition assign (k : Diagnostic.key) : R unit :=
  fun r => (inr tt, Diagnostic.setitem k r).

(** [try: body except Exception as e: handler] *)
Definition try_except (body : R unit) (handler : Unicode.str -> R unit) : R unit :=
  fun r =>
    match body r with
    | (inr a, r') => (inr a, r')
    | (inl e, r') => handler e r'
    end.

(** [db.name if hasattr(db, 'name') else default] *)
Definition name_or (db : Database.t) (default : Unicode.str) : R Unicode.str :=
  match Database.name db with
  | Database.Missing => rret default
  | Database.Raises e => rraise e
  | Database.Has v => rret v
  end.

(** A value of [os.getenv] used as a condition. *)
Definition truthy (v : option string) : bool :=
  match v with
  | Some s => negb (is_empty s)
  | None => false
  end.

Definition test_database (db : option Database.t)
    (getenv : string -> option string) : Diagnostic.t :=
  let response :=
    Diagnostic.mk
      (Unicode.check_mark ++ Unicode.of_string " Running")
      (Unicode.cross_mark ++ Unicode.of_string " Not Available")
      None None
      (Unicode.of_string "Not Connected")
      [] in
  snd
    ((_ <~ try_except
         (match db with
          | Some db =>
              _ <~ assign (Diagnostic.Kdatabase
                     (Unicode.check_mark ++ Unicode.of_string " Available")) ;;
              _ <~ assign (Diagnostic.Kdatabase_url
                     (Unicode.check_mark ++ Unicode.of_string " Configured")) ;;
              name <~ name_or db
                     (Unicode.check_mark ++ Unicode.of_string " Connected") ;;
              _ <~ assign (Diagnostic.Kdatabase_name name) ;;
              _ <~ assign (Diagnostic.Kconnection_status
                     (Unicode.of_string "Connected")) ;;
              try_except
                (match Database.list_collection_names db with
                 | inr collections =>
                     _ <~ assign (Diagnostic.Kcollections (firstn 10 collections)) ;;
                     assign (Diagnostic.Kdatabase
                       (Unicode.check_mark
                          ++ Unicode.of_string " Connected & Working"))
                 | inl e => rraise e
                 end)
                (fun e =>
                   assign (Diagnostic.Kdatabase
                     (Unicode.warning_sign
                        ++ Unicode.of_string "  Connected but Error: "
                        ++ firstn 50 e)))
          | None =>
              assign (Diagnostic.Kdatabase
                (Unicode.warning_sign
                   ++ Unicode.of_string "  Available but not initialized"))
          end)
         (fun e =>
            assign (Diagnostic.Kdatabase
              (Unicode.cross_mark ++ Unicode.of_string " Error: "
                 ++ firstn 50 e))) ;;
      _ <~ assign (Diagnostic.Kdatabase_url
             (if truthy (getenv "DATABASE_URL")
              then Unicode.check_mark ++ Unicode.of_string " Set"
              else Unicode.cross_mark ++ Unicode.of_string " Not Set")) ;;
      assign (Diagnostic.Kdatabase_name
        (if truthy (getenv "DATABASE_NAME")
         then Unicode.check_mark ++ Unicode.of_string " Set"
         else Unicode.cross_mark ++ Unicode.of_string " Not Set")))
       response).

(** The payloads of the registrations of a run, in order. *)
Fixpoint registrations (reqs : list Request) : list User.t :=
  match reqs with
  | [] => []
  | RegisterUser user :: reqs' => user :: registrations reqs'
  | _ :: reqs' => registrations reqs'
  end.

(** * Properties *)

(** ** Strings *)

Section StringFacts.

Local Open Scope string_scope.

Lemma sapp_assoc (a b c : string) : (a ++ b) ++ c = a ++ (b ++ c).
Proof. induction a as [|x a IH]; simpl; [reflexivity | now rewrite IH]. Qed.

Lemma sapp_nil_r (a : string) : a ++ "" = a.
Proof. induction a as [|x a IH]; simpl; [reflexivity | now rewrite IH]. Qed.

Lemma prefix_iff (p s : string) :
  prefix p s = true <-> exists t, s = p ++ t.
Proof.
  revert s; induction p as [|x p IH]; intros s; simpl.
  - destruct s; split; intros; try reflexivity; eexists; reflexivity.
  - destruct s as [|y s]; simpl.
    + split; [discriminate | intros [t Ht]; discriminate].
    + destruct (ascii_dec x y) as [->|Hxy].
      * rewrite IH. split; intros [t Ht]; exists t.
        -- now rewrite Ht.
        -- now inversion Ht.
      * split; [discriminate | intros [t Ht]; inversion Ht; congruence].
Qed.

Lemma contains_iff (sub s : string) :
  contains sub s = true <-> exists pre post, s = pre ++ sub ++ post.
Proof.
  induction s as [|y s IH]; cbn [contains].
  - rewrite orb_false_r, prefix_iff. split.
    + intros [t Ht]. exists "", t. exact Ht.
    + intros [pre [post H]]. destruct pre; simpl in H.
      * now exists post.
      * discriminate.
  - rewrite orb_true_iff, prefix_iff, IH. split.
    + intros [[t Ht] | [pre [post H]]].
      * exists "", t. exact Ht.
      * exists (String y pre), post. simpl. now rewrite H.
    + intros [pre [post H]]. destruct pre as [|z pre]; simpl in H.
      * left. now exists post.
      * right. inversion H. now exists pre, post.
Qed.

Lemma contains_app_l (w a b : string) :
  contains w a = true -> contains w (a ++ b) = true.
Proof.
  rewrite !contains_iff. intros [pre [post H]].
  exists pre, (post ++ b). now rewrite H, !sapp_assoc.
Qed.

Lemma contains_refl (s : string) : contains s s = true.
Proof. apply contains_iff. exists "", "". simpl. now rewrite sapp_nil_r. Qed.

Lemma split_from_substring (s cur w : string) :
  In w (split_from cur s) -> exists pre post, cur ++ s = pre ++ w ++ post.
Proof.
  revert cur; induction s as [|c s IH]; intros cur; simpl.
  - destruct cur; simpl; [contradiction |].
    intros [<- | []]. exists "", "". simpl. now rewrite !sapp_nil_r.
  - destruct (isspace c).
    + assert (Hrest : In w (split_from "" s) ->
                      exists pre post, cur ++ String c s = pre ++ w ++ post).
      { intros Hin. destruct (IH _ Hin) as [pre [post H]]. simpl in H.
        exists (cur ++ String c pre), post.
        rewrite sapp_assoc. simpl. now rewrite H. }
      destruct cur as [|x cur]; simpl; [exact Hrest |].
      intros [<- | Hin]; [| now apply Hrest].
      exists "", (String c s). reflexivity.
    + intros Hin. destruct (IH _ Hin) as [pre [post H]].
      exists pre, post. rewrite <- H, sapp_assoc. reflexivity.
Qed.

Lemma split_substring (s w : string) :
  In w (split s) -> contains w s = true.
Proof.
  intros Hin. apply contains_iff.
  destruct (split_from_substring _ _ _ Hin) as [pre [post H]].
  now exists pre, post.
Qed.

Lemma isspace_lower_char (c : ascii) : isspace (lower_char c) = isspace c.
Proof.
  destruct c as [[] [] [] [] [] [] [] []]; reflexivity.
Qed.

(** On the characters modelled lowering keeps the length.  Beyond them
    [str.lower()] can lengthen a string (U+0130 becomes two characters) and
    never shortens one, so statements about the program use this only to
    carry a lower bound on a length from a string to its lowercase. *)
Lemma length_lower (s : string) : String.length (lower s) = String.length s.
Proof. induction s as [|c s IH]; simpl; [reflexivity | now rewrite IH]. Qed.

Lemma lower_app (a b : string) : lower (a ++ b) = lower a ++ lower b.
Proof. induction a as [|c a IH]; simpl; [reflexivity | now rewrite IH]. Qed.

Lemma is_empty_lower (s : string) : is_empty (lower s) = is_empty s.
Proof. now destruct s. Qed.

Lemma split_from_lower (s cur : string) :
  split_from (lower cur) (lower s) = map lower (split_from cur s).
Proof.
  revert cur; induction s as [|c s IH]; intros cur; simpl.
  - rewrite is_empty_lower. now destruct (is_empty cur).
  - rewrite isspace_lower_char, is_empty_lower.
    destruct (isspace c).
    + specialize (IH ""). simpl in IH.
      destruct (is_empty cur); simpl; now rewrite IH.
    + rewrite <- IH, lower_app. reflexivity.
Qed.

(** Lowering a string and splitting it commute. *)
Lemma split_lower (s : string) : split (lower s) = map lower (split s).
Proof. exact (split_from_lower s ""). Qed.

End StringFacts.

(** ** The classifier *)

Section Classifier.

Lemma first_keyword_Some (kws : list string) (text kw : string) :
  first_keyword kws text = Some kw -> In kw kws /\ contains kw text = true.
Proof.
  unfold first_keyword. intros H.
  now apply (find_some (fun k => contains k text)) in H.
Qed.

Lemma first_keyword_None (kws : list string) (text : string) :
  first_keyword kws text = None <->
  forall kw, In kw kws -> contains kw text = false.
Proof.
  unfold first_keyword. split.
  - intros H kw Hin.
    exact (find_none (fun k => contains k text) kws H kw Hin).
  - induction kws as [|k kws IH]; simpl; intros H; [reflexivity |].
    rewrite (H k (or_introl eq_refl)). apply IH.
    intros kw Hin. apply H. now right.
Qed.

Lemma blocked_match_Some (categories : list string) (text cat kw : string) :
  blocked_match categories text = Some (cat, kw) ->
  In cat categories /\ In kw (dict_get BLOCKLIST_KEYWORDS cat) /\
  contains kw text = true.
Proof.
  induction categories as [|c cs IH]; cbn [blocked_match]; [discriminate |].
  destruct (first_keyword (dict_get BLOCKLIST_KEYWORDS c) text) as [k|] eqn:E.
  - intros H. inversion H; subst.
    destruct (first_keyword_Some _ _ _ E) as [Hin Hc].
    repeat split; [now left | assumption | assumption].
  - intros H. destruct (IH H) as [H1 [H2 H3]].
    repeat split; [now right | assumption | assumption].
Qed.

Lemma blocked_match_None (categories : list string) (text : string) :
  blocked_match categories text = None <-> no_blocked_keyword categories text.
Proof.
  unfold no_blocked_keyword.
  induction categories as [|c cs IH]; cbn [blocked_match].
  - split; [intros _ cat kw [] | reflexivity].
  - destruct (first_keyword (dict_get BLOCKLIST_KEYWORDS c) text) as [k|] eqn:E.
    + split; [discriminate |]. intros H.
      destruct (first_keyword_Some _ _ _ E) as [Hin Hc].
      rewrite (H c k (or_introl eq_refl) Hin) in Hc. discriminate.
    + split.
      * intros H cat kw [<- | Hin] Hkw.
        -- now apply (proj1 (first_keyword_None _ _) E).
        -- exact (proj1 IH H cat kw Hin Hkw).
      * intros H. apply (proj2 IH). intros cat kw Hin Hkw.
        apply (H cat kw); [now right | assumption].
Qed.

Lemma blocked_match_exists (categories : list string) (text cat kw : string) :
  In cat categories -> In kw (dict_get BLOCKLIST_KEYWORDS cat) ->
  contains kw text = true ->
  exists cat' kw', blocked_match categories text = Some (cat', kw').
Proof.
  intros Hc Hk Hin.
  destruct (blocked_match categories text) as [[c k]|] eqn:E.
  - now exists c, k.
  - rewrite (proj1 (blocked_match_None _ _) E cat kw Hc Hk) in Hin.
    discriminate.
Qed.

Lemma find_app_first {A} (f : A -> bool) (l1 l2 : list A) :
  List.find f (l1 ++ l2) =
  match List.find f l1 with
  | Some x => Some x
  | None => List.find f l2
  end.
Proof.
  induction l1 as [|a l1 IH]; simpl; [reflexivity |].
  now destruct (f a).
Qed.

Lemma find_tagged (cat text : string) (kws : list string) :
  List.find (fun p : string * string => contains (snd p) text)
    (map (pair cat) kws)
  = option_map (pair cat) (first_keyword kws text).
Proof.
  unfold first_keyword.
  induction kws as [|k kws IH]; simpl; [reflexivity |].
  now destruct (contains k text).
Qed.

(** The two loops report the first pair, in the order they visit the pairs,
    whose keyword occurs in the text. *)
Lemma blocked_match_pairs (categories : list string) (text : string) :
  blocked_match categories text
  = List.find (fun p => contains (snd p) text) (enabled_pairs categories).
Proof.
  unfold enabled_pairs.
  induction categories as [|c cs IH]; cbn [blocked_match flat_map];
    [reflexivity |].
  rewrite find_app_first, find_tagged, IH.
  now destruct (first_keyword (dict_get BLOCKLIST_KEYWORDS c) text).
Qed.

Lemma find_first_split {A} (f : A -> bool) (l : list A) (x : A) :
  List.find f l = Some x ->
  exists before after,
    l = before ++ x :: after /\ forall y, In y before -> f y = false.
Proof.
  induction l as [|a l IH]; simpl; [discriminate |].
  destruct (f a) eqn:E.
  - intros H. inversion H; subst. exists [], l. split; [reflexivity |].
    intros y [].
  - intros H. destruct (IH H) as [before [after [Hl Hb]]].
    exists (a :: before), after. split; [now rewrite Hl |].
    intros y [<- | Hy]; auto.
Qed.

Lemma matched_reason_names_keyword (kw cat : string) :
  contains kw (matched_reason kw cat) = true.
Proof.
  apply contains_iff.
  exists "Matched blocked keyword '", ("' in category '" ++ cat ++ "'")%string.
  reflexivity.
Qed.

Lemma matched_reason_names_category (kw cat : string) :
  contains cat (matched_reason kw cat) = true.
Proof.
  apply contains_iff.
  exists ("Matched blocked keyword '" ++ kw ++ "' in category '")%string, "'".
  unfold matched_reason. now rewrite !sapp_assoc.
Qed.

Lemma classify_blocked (goal : string) (title url : option string)
    (categories : list string) (cat kw : string) :
  blocked_match categories (blob goal title url) = Some (cat, kw) ->
  classify_relevance goal title url categories
  = ("irrelevant", matched_reason kw cat).
Proof. intros H. unfold classify_relevance. now rewrite H. Qed.

Lemma classify_not_blocked (goal : string) (title url : option string)
    (categories : list string) :
  blocked_match categories (blob goal title url) = None ->
  classify_relevance goal title url categories
  = if existsb (fun w => contains w (blob goal title url)) (goal_words goal)
    then ("relevant", goal_reason)
    else ("relevant", default_reason).
Proof. intros H. unfold classify_relevance. now rewrite H. Qed.

(** The decision is one of the two literals of the schema. *)
Lemma classify_decision (goal : string) (title url : option string)
    (categories : list string) :
  fst (classify_relevance goal title url categories) = "relevant" \/
  fst (classify_relevance goal title url categories) = "irrelevant".
Proof.
  unfold classify_relevance.
  destruct (blocked_match categories (blob goal title url)) as [[c k]|].
  - now right.
  - left. now destruct (existsb _ _).
Qed.

Lemma goal_words_spec (goal w : string) :
  In w (goal_words goal) <->
  In w (split (lower goal)) /\ (3 < String.length w)%nat.
Proof.
  unfold goal_words. rewrite filter_In, Nat.ltb_lt. reflexivity.
Qed.

(** A word of the goal occurs in the blob, which starts with the goal. *)
Lemma goal_word_in_blob (goal : string) (title url : option string) (w : string) :
  In w (split (lower goal)) -> contains w (blob goal title url) = true.
Proof.
  intros Hin. unfold blob. cbn [join].
  apply contains_app_l. now apply split_substring.
Qed.

Lemma goal_words_found (goal : string) (title url : option string) :
  existsb (fun w => contains w (blob goal title url)) (goal_words goal)
  = negb (match goal_words goal with [] => true | _ => false end).
Proof.
  destruct (goal_words goal) as [|w ws] eqn:E; [reflexivity |].
  assert (Hw : In w (goal_words goal)) by (rewrite E; now left).
  apply goal_words_spec in Hw. destruct Hw as [Hw _].
  simpl. now rewrite (goal_word_in_blob goal title url w Hw).
Qed.

(** No word of the goal is kept exactly when every word of the lowercased
    goal has at most 3 characters: the length test of [classify_relevance]
    is on the words of [goal.lower()]. *)
Lemma goal_words_nil_lower_iff (goal : string) :
  goal_words goal = [] <->
  forall w, In w (split (lower goal)) -> (String.length w <= 3)%nat.
Proof.
  split.
  - intros Hnil w Hin.
    destruct (Nat.le_gt_cases (String.length w) 3) as [Hle | Hgt]; [exact Hle |].
    assert (Hw : In w (goal_words goal))
      by (apply goal_words_spec; now split).
    rewrite Hnil in Hw. destruct Hw.
  - intros Hall. destruct (goal_words goal) as [|w ws] eqn:E; [reflexivity |].
    assert (Hw : In w (goal_words goal)) by (rewrite E; now left).
    apply goal_words_spec in Hw. destruct Hw as [Hin Hlen].
    specialize (Hall w Hin). lia.
Qed.

(** A word of the goal longer than 3 characters gives a word of the
    lowercased goal longer than 3 characters: lowering keeps the words
    apart and does not shorten them.  (On the characters modelled it keeps
    their length; [str.lower()] lengthens some words outside that range,
    so the converse is not stated.) *)
Lemma goal_words_nil_short (goal : string) :
  goal_words goal = [] ->
  forall w, In w (split goal) -> (String.length w <= 3)%nat.
Proof.
  intros Hnil w Hin.
  destruct (Nat.le_gt_cases (String.length w) 3) as [Hle | Hgt]; [exact Hle |].
  assert (Hw : In (lower w) (goal_words goal)).
  { apply goal_words_spec. rewrite split_lower, length_lower.
    split; [now apply in_map | exact Hgt]. }
  rewrite Hnil in Hw. destruct Hw.
Qed.

End Classifier.

(** C1. The blob is the lowercased goal, the lowercased title (or the empty
    string) and the lowercased url (or the empty string), in that order,
    joined with one space.  Whenever a keyword of the table for a category
    of the argument occurs in the blob, the decision is "irrelevant" and
    the reason names a keyword that occurs in the blob and the enabled
    category it is listed under; when only one pair of an enabled category
    and a keyword of it matches, it is that pair.  For the goal "finish report", the
    categories ["social"] and the title "Twitter feed" the decision is
    "irrelevant" and the reason mentions "twitter" and "social". *)
Theorem classify_blocked_keyword :
  (forall goal title url,
      blob goal title url
      = (lower goal ++ " " ++ lower (or_empty title) ++ " "
           ++ lower (or_empty url))%string) /\
  (forall goal title url categories cat kw,
      In cat categories ->
      In kw (dict_get BLOCKLIST_KEYWORDS cat) ->
      contains kw (blob goal title url) = true ->
      (exists cat' kw',
          In cat' categories /\
          In kw' (dict_get BLOCKLIST_KEYWORDS cat') /\
          contains kw' (blob goal title url) = true /\
          classify_relevance goal title url categories
          = ("irrelevant", matched_reason kw' cat') /\
          contains kw' (matched_reason kw' cat') = true /\
          contains cat' (matched_reason kw' cat') = true) /\
      ((forall c k,
           In c categories -> In k (dict_get BLOCKLIST_KEYWORDS c) ->
           contains k (blob goal title url) = true -> c = cat /\ k = kw) ->
       classify_relevance goal title url categories
       = ("irrelevant", matched_reason kw cat))) /\
  (fst (classify_relevance "finish report" (Some "Twitter feed") None ["social"])
   = "irrelevant" /\
   contains "twitter"
     (snd (classify_relevance "finish report" (Some "Twitter feed") None
             ["social"])) = true /\
   contains "social"
     (snd (classify_relevance "finish report" (Some "Twitter feed") None
             ["social"])) = true).
Proof.
  split; [reflexivity | split].
  - intros goal title url categories cat kw Hc Hk Hin.
    destruct (blocked_match_exists _ _ _ _ Hc Hk Hin) as [cat' [kw' E]].
    destruct (blocked_match_Some _ _ _ _ E) as [H1 [H2 H3]].
    split.
    + exists cat', kw'.
      repeat split; try assumption.
      * now apply classify_blocked.
      * apply matched_reason_names_keyword.
      * apply matched_reason_names_category.
    + intros Honly. destruct (Honly cat' kw' H1 H2 H3) as [<- <-].
      now apply classify_blocked.
  - repeat split; reflexivity.
Qed.

Lemma classify_blocked_keyword_witness :
  exists cat' kw',
    In cat' ["social"] /\
    In kw' (dict_get BLOCKLIST_KEYWORDS cat') /\
    contains kw' (blob "finish report" (Some "Twitter feed") None) = true /\
    classify_relevance "finish report" (Some "Twitter feed") None ["social"]
    = ("irrelevant", matched_reason kw' cat') /\
    contains kw' (matched_reason kw' cat') = true /\
    contains cat' (matched_reason kw' cat') = true.
Proof.
  apply (proj1 (proj2 classify_blocked_keyword)
           "finish report" (Some "Twitter feed") None ["social"]
           "social" "twitter").
  - simpl. now left.
  - simpl. now left.
  - reflexivity.
Defined.

(** C3, as the code has it.  When no keyword of an enabled category occurs
    in the blob: if a word of the lowercased goal longer than 3 characters
    occurs in the blob, the result is "relevant" with the reason
    "Goal keywords found in current context"; otherwise it is "relevant"
    with the reason "No blocklisted signals detected".  For the goal "abc",
    no categories and the title "Unrelated Page" the result is the latter.
    The decision is never anything but "relevant" or "irrelevant". *)
Theorem classify_unblocked_reasons :
  (forall goal title url categories,
      no_blocked_keyword categories (blob goal title url) ->
      ((exists w, In w (split (lower goal)) /\ (3 < String.length w)%nat /\
                  contains w (blob goal title url) = true) ->
       classify_relevance goal title url categories
       = ("relevant", "Goal keywords found in current context")) /\
      (~ (exists w, In w (split (lower goal)) /\ (3 < String.length w)%nat /\
                    contains w (blob goal title url) = true) ->
       classify_relevance goal title url categories
       = ("relevant", "No blocklisted signals detected"))) /\
  classify_relevance "abc" (Some "Unrelated Page") None []
  = ("relevant", "No blocklisted signals detected") /\
  (forall goal title url categories,
      fst (classify_relevance goal title url categories) = "relevant" \/
      fst (classify_relevance goal title url categories) = "irrelevant").
Proof.
  split; [| split; [reflexivity | exact classify_decision]].
  intros goal title url categories Hnb.
  apply blocked_match_None in Hnb.
  rewrite (classify_not_blocked _ _ _ _ Hnb).
  destruct (existsb (fun w => contains w (blob goal title url)) (goal_words goal))
    eqn:E.
  - split; [reflexivity |]. intros Hno. exfalso. apply Hno.
    apply existsb_exists in E. destruct E as [w [Hw Hc]].
    apply goal_words_spec in Hw. exists w. tauto.
  - split; [| reflexivity]. intros [w [Hw [Hlen Hc]]].
    assert (Ht : existsb (fun w => contains w (blob goal title url))
                   (goal_words goal) = true).
    { apply existsb_exists. exists w. split; [| exact Hc].
      apply goal_words_spec. now split. }
    rewrite Ht in E. discriminate.
Qed.

Lemma classify_unblocked_reasons_witness :
  classify_relevance "write thesis chapter"
    (Some "Thesis Chapter Draft - Google Docs") None []
  = ("relevant", "Goal keywords found in current context").
Proof.
  apply (proj1 classify_unblocked_reasons "write thesis chapter"
           (Some "Thesis Chapter Draft - Google Docs") None []).
  - intros cat kw [].
  - exists "thesis". split; [| split].
    + simpl. right. now left.
    + simpl. lia.
    + reflexivity.
Defined.

(** C3 as stated fails: the two reasons start with a capital letter, so the
    reason is not exactly "no blocklisted signals detected" at the input
    the claim names, nor "goal keywords found in current context" where a
    goal word is found. *)
Lemma classify_reasons_are_capitalised :
  no_blocked_keyword [] (blob "abc" (Some "Unrelated Page") None) /\
  classify_relevance "abc" (Some "Unrelated Page") None []
  <> ("relevant", "no blocklisted signals detected") /\
  classify_relevance "write thesis chapter"
    (Some "Thesis Chapter Draft - Google Docs") None []
  <> ("relevant", "goal keywords found in current context").
Proof.
  split; [intros cat kw [] | split; discriminate].
Qed.

(** C4 as stated fails: with the categories listed as ["games"; "social"]
    and a blob in which both "steam" and "twitter" occur, the first match in
    table-declaration order is ("social", "twitter"), while the classifier
    reports "steam" in "games"; listing the same categories in the other
    order changes the reason. *)
Lemma classify_follows_session_order :
  table_order_match BLOCKLIST_KEYWORDS ["games"; "social"]
    (blob "x" (Some "steam twitter") None) = Some ("social", "twitter") /\
  classify_relevance "x" (Some "steam twitter") None ["games"; "social"]
  = ("irrelevant", "Matched blocked keyword 'steam' in category 'games'") /\
  classify_relevance "x" (Some "steam twitter") None ["social"; "games"]
  = ("irrelevant", "Matched blocked keyword 'twitter' in category 'social'") /\
  classify_relevance "x" (Some "steam twitter") None ["games"; "social"]
  <> classify_relevance "x" (Some "steam twitter") None ["social"; "games"].
Proof.
  repeat split; try reflexivity. discriminate.
Qed.

(** C4, as the code has it.  When a keyword of an enabled category occurs
    in the blob, the pair reported is the first match among the pairs
    (category, keyword) taken category by category in the order the
    session lists its categories and, within a category, in the order of
    the table: no pair before it in that order matches. *)
Theorem classify_first_match_in_session_order :
  forall goal title url categories,
    blocked_match categories (blob goal title url)
    = List.find (fun p => contains (snd p) (blob goal title url))
        (enabled_pairs categories) /\
    forall cat kw,
      List.find (fun p => contains (snd p) (blob goal title url))
        (enabled_pairs categories) = Some (cat, kw) ->
      classify_relevance goal title url categories
      = ("irrelevant", matched_reason kw cat) /\
      exists before after,
        enabled_pairs categories = before ++ (cat, kw) :: after /\
        forall p, In p before -> contains (snd p) (blob goal title url) = false.
Proof.
  intros goal title url categories.
  split; [apply blocked_match_pairs |].
  intros cat kw Hfind. split.
  - apply classify_blocked. now rewrite blocked_match_pairs.
  - exact (find_first_split _ _ _ Hfind).
Qed.

Lemma classify_first_match_in_session_order_witness :
  classify_relevance "x" (Some "steam twitter") None ["games"; "social"]
  = ("irrelevant", matched_reason "steam" "games") /\
  exists before after,
    enabled_pairs ["games"; "social"] = before ++ ("games", "steam") :: after /\
    forall p, In p before ->
              contains (snd p) (blob "x" (Some "steam twitter") None) = false.
Proof.
  apply (proj2 (classify_first_match_in_session_order
                  "x" (Some "steam twitter") None ["games"; "social"])).
  reflexivity.
Defined.

(** C10.  The blob starts with the goal, so a word of the goal is always
    found in it.  When no keyword of an enabled category occurs in the
    blob: a goal with a word longer than 3 characters gives "relevant" with
    the goal-keywords reason, whatever the title and the url; the default
    reason is returned only when every word of the goal has at most 3
    characters, and exactly when every word of the lowercased goal has at
    most 3 characters, which is where the code measures them.  The
    goal-word test itself has the same value for any two choices of title
    and url. *)
Theorem goal_keyword_check_ignores_title_and_url :
  (forall goal title url categories,
      no_blocked_keyword categories (blob goal title url) ->
      ((exists w, In w (split goal) /\ (3 < String.length w)%nat) ->
       classify_relevance goal title url categories = ("relevant", goal_reason)) /\
      (snd (classify_relevance goal title url categories) = default_reason ->
       forall w, In w (split goal) -> (String.length w <= 3)%nat) /\
      (snd (classify_relevance goal title url categories) = default_reason <->
       forall w, In w (split (lower goal)) -> (String.length w <= 3)%nat)) /\
  (forall goal title url title' url',
      existsb (fun w => contains w (blob goal title url)) (goal_words goal)
      = existsb (fun w => contains w (blob goal title' url')) (goal_words goal)).
Proof.
  split.
  - intros goal title url categories Hnb.
    apply blocked_match_None in Hnb.
    rewrite (classify_not_blocked _ _ _ _ Hnb), goal_words_found.
    pose proof (goal_words_nil_short goal) as Hshort.
    pose proof (goal_words_nil_lower_iff goal) as Hlower.
    destruct (goal_words goal) as [|w0 ws]; simpl.
    + split; [| split].
      * intros [w [Hin Hlen]].
        pose proof (Hshort eq_refl w Hin). lia.
      * intros _. exact (Hshort eq_refl).
      * split; [intros _; now apply Hlower | reflexivity].
    + split; [reflexivity | split].
      * discriminate.
      * split; [discriminate |].
        intros Hall. apply Hlower in Hall. discriminate.
  - intros goal title url title' url'. now rewrite !goal_words_found.
Qed.

Lemma goal_keyword_check_ignores_title_and_url_witness :
  classify_relevance "write thesis chapter" (Some "Unrelated Page") None []
  = ("relevant", goal_reason).
Proof.
  apply (proj1 goal_keyword_check_ignores_title_and_url
           "write thesis chapter" (Some "Unrelated Page") None []).
  - intros cat kw [].
  - exists "thesis". split.
    + simpl. right. now left.
    + simpl. lia.
Defined.

(** ** The store and the handlers *)

Section StoreFacts.

Lemma ObjectId_of_str_error (sid : string) (e : Error) :
  ObjectId_of_str sid = inl e -> e = InvalidId sid.
Proof.
  unfold ObjectId_of_str.
  destruct (String.length sid =? 24)%nat; [destruct (fromhex sid) |];
    intros H; now inversion H.
Qed.

(** Printing an identifier and reading it back. *)
Lemma hex_byte_roundtrip (c : ascii) :
  is_ascii_space (hex_digit (code c / 16)) = false /\
  hex_value (hex_digit (code c / 16)) = Some (code c / 16)%N /\
  hex_value (hex_digit (code c mod 16)) = Some (code c mod 16)%N /\
  ascii_of_N (16 * (code c / 16) + code c mod 16) = c.
Proof.
  destruct c as [[] [] [] [] [] [] [] []]; vm_compute; repeat split.
Qed.

Lemma fromhex_str (b : ObjectId) : fromhex (ObjectId_str b) = Some b.
Proof.
  induction b as [|c b IH]; [reflexivity |].
  destruct (hex_byte_roundtrip c) as [Hs [Hh [Hl Hc]]].
  cbn [ObjectId_str fromhex]. rewrite Hs, Hh, Hl, IH. cbn [option_map].
  now rewrite Hc.
Qed.

Lemma length_ObjectId_str (b : ObjectId) :
  String.length (ObjectId_str b) = (2 * String.length b)%nat.
Proof.
  induction b as [|c b IH]; [reflexivity |].
  cbn [ObjectId_str String.length]. rewrite IH. lia.
Qed.

Lemma length_sapp (a b : string) :
  String.length (a ++ b) = (String.length a + String.length b)%nat.
Proof. induction a as [|c a IH]; simpl; [reflexivity | now rewrite IH]. Qed.

Lemma length_be_bytes (len : nat) (n : N) : String.length (be_bytes len n) = len.
Proof.
  revert n; induction len as [|k IH]; intros n; [reflexivity |].
  cbn [be_bytes]. rewrite length_sapp, IH. simpl. lia.
Qed.

Lemma ObjectId_roundtrip (b : ObjectId) :
  String.length b = 12%nat -> ObjectId_of_str (ObjectId_str b) = inr b.
Proof.
  intros Hlen. unfold ObjectId_of_str.
  rewrite length_ObjectId_str, Hlen, fromhex_str. reflexivity.
Qed.

(** The string [create_document] hands back denotes the identifier it
    stored. *)
Lemma fresh_oid_roundtrip (db : Store) :
  ObjectId_of_str (ObjectId_str (fresh_oid db)) = inr (fresh_oid db).
Proof. apply ObjectId_roundtrip. apply length_be_bytes. Qed.

Lemma find_hd_filter {A} (f : A -> bool) (l : list A) :
  List.find f l = hd_error (filter f l).
Proof.
  induction l as [|a l IH]; simpl; [reflexivity |].
  now destruct (f a).
Qed.

Lemma find_existsb {A} (f : A -> bool) (l : list A) :
  existsb f l = match List.find f l with Some _ => true | None => false end.
Proof.
  induction l as [|a l IH]; simpl; [reflexivity |].
  now destruct (f a).
Qed.

(** *** Updates *)

Lemma apply_inc_id (d : SessionDoc) (ka : Key.counter * Z) :
  _id (apply_inc d ka) = _id d.
Proof. reflexivity. Qed.

Lemma apply_set_id (d : SessionDoc) (a : Key.assignment) :
  _id (apply_set d a) = _id d.
Proof. now destruct a. Qed.

Lemma apply_update_id (u : Update) (d : SessionDoc) :
  _id (apply_update u d) = _id d.
Proof.
  unfold apply_update. destruct u as [incs sets]. simpl.
  assert (Hinc : forall d0, _id (fold_left apply_inc incs d0) = _id d0).
  { induction incs as [|ka incs IH]; intros d0; simpl; [reflexivity |].
    now rewrite IH. }
  assert (Hset : forall d0, _id (fold_left apply_set sets d0) = _id d0).
  { induction sets as [|a sets IH]; intros d0; simpl; [reflexivity |].
    now rewrite IH, apply_set_id. }
  now rewrite Hset, Hinc.
Qed.

Lemma update_first_length (oid : ObjectId) (u : Update) (docs : list SessionDoc) :
  List.length (update_first oid u docs) = List.length docs.
Proof.
  induction docs as [|d docs IH]; simpl; [reflexivity |].
  destruct (has_id oid d); simpl; [reflexivity | now rewrite IH].
Qed.

(** A document keeps its place; it is the old one or the updated one. *)
Lemma update_first_nth (oid : ObjectId) (u : Update) (docs : list SessionDoc)
    (i : nat) (d : SessionDoc) :
  nth_error docs i = Some d ->
  nth_error (update_first oid u docs) i = Some d \/
  nth_error (update_first oid u docs) i = Some (apply_update u d).
Proof.
  revert i; induction docs as [|d0 docs IH]; intros i; simpl.
  - destruct i; discriminate.
  - destruct (has_id oid d0).
    + destruct i; simpl.
      * intros H. inversion H; subst. now right.
      * intros H. now left.
    + destruct i; simpl.
      * intros H. now left.
      * apply IH.
Qed.

Lemma update_first_find (oid : ObjectId) (u : Update) (docs : list SessionDoc)
    (d : SessionDoc) :
  List.find (has_id oid) docs = Some d ->
  List.find (has_id oid) (update_first oid u docs) = Some (apply_update u d).
Proof.
  induction docs as [|d0 docs IH]; simpl; [discriminate |].
  destruct (has_id oid d0) eqn:E; simpl.
  - intros H. inversion H; subst.
    unfold has_id in *. now rewrite apply_update_id, E.
  - rewrite E. apply IH.
Qed.

Lemma update_first_absent (oid : ObjectId) (u : Update) (docs : list SessionDoc) :
  List.find (has_id oid) docs = None -> update_first oid u docs = docs.
Proof.
  induction docs as [|d0 docs IH]; simpl; [reflexivity |].
  destruct (has_id oid d0); [discriminate |].
  intros H. now rewrite IH.
Qed.

(** *** [evolves] is a preorder, and the two updates of [main.py] respect it *)

Lemma evolves_refl (d : SessionDoc) : evolves d d.
Proof. unfold evolves. repeat split; try lia; auto. Qed.

Lemma evolves_trans (d1 d2 d3 : SessionDoc) :
  evolves d1 d2 -> evolves d2 d3 -> evolves d1 d3.
Proof.
  unfold evolves.
  intros [Hi [Hf [Hl [Hd [He Hs]]]]] [Hi' [Hf' [Hl' [Hd' [He' Hs']]]]].
  repeat split; try lia; try congruence.
  - auto.
  - destruct Hs' as [Hs' | Hs']; [| now right].
    destruct Hs as [Hs | Hs]; [left; congruence | right; congruence].
Qed.

Lemma evolves_accrual (decision : string) (now : datetime) (d : SessionDoc) :
  evolves d (apply_update (accrual_update decision now) d).
Proof.
  unfold evolves, apply_update, accrual_update.
  destruct (String.eqb decision "irrelevant"); simpl;
    repeat split; try lia; auto.
Qed.

Lemma evolves_end (now : datetime) (d : SessionDoc) :
  evolves d (apply_update (end_update now) d).
Proof.
  unfold evolves, apply_update. simpl. repeat split; try lia; auto.
Qed.

(** *** [update_activity], case by case *)

Lemma update_activity_invalid (now : datetime) (payload : UpdateActivityRequest.t)
    (db : Store) (e : Error) :
  ObjectId_of_str (UpdateActivityRequest.session_id payload) = inl e ->
  update_activity now payload db = (inl e, db).
Proof.
  intros H. unfold update_activity, bind. now rewrite H.
Qed.

Lemma update_activity_missing (now : datetime) (payload : UpdateActivityRequest.t)
    (db : Store) (oid : ObjectId) :
  ObjectId_of_str (UpdateActivityRequest.session_id payload) = inr oid ->
  List.find (has_id oid) (db_session db) = None ->
  update_activity now payload db
  = (inl (HTTPException 404 "Session not found"), db).
Proof.
  intros H Hfind. unfold update_activity, bind. rewrite H. simpl.
  rewrite find_hd_filter in Hfind.
  destruct (filter (has_id oid) (db_session db)); [reflexivity | discriminate].
Qed.

Lemma update_activity_found (now : datetime) (payload : UpdateActivityRequest.t)
    (db : Store) (oid : ObjectId) (sdoc : SessionDoc) :
  ObjectId_of_str (UpdateActivityRequest.session_id payload) = inr oid ->
  List.find (has_id oid) (db_session db) = Some sdoc ->
  let r := classify_relevance (Session.goal (fields sdoc))
             (UpdateActivityRequest.title payload)
             (UpdateActivityRequest.url payload)
             (Session.categories (fields sdoc)) in
  update_activity now payload db
  = (inr r, after_activity now payload oid (fst r) (snd r) db).
Proof.
  intros H Hfind r. unfold update_activity, bind. rewrite H. simpl.
  rewrite find_hd_filter in Hfind.
  destruct (filter (has_id oid) (db_session db)) as [|d0 rest];
    [discriminate |].
  simpl in Hfind. inversion Hfind; subst d0.
  pose proof (classify_decision (Session.goal (fields sdoc))
                (UpdateActivityRequest.title payload)
                (UpdateActivityRequest.url payload)
                (Session.categories (fields sdoc))) as Hdec.
  fold r in Hdec. fold r. destruct r as [decision reason]. simpl in Hdec.
  unfold ActivityEvent.validate, ActivityEvent.errors. simpl.
  assert (Hlit : is_literal ["relevant"; "irrelevant"] decision = true).
  { destruct Hdec as [-> | ->]; reflexivity. }
  simpl in Hlit. rewrite Hlit. reflexivity.
Qed.

(** What the accrual changes in a document, and what it leaves. *)
Lemma accrual_fields (decision : string) (now : datetime) (d : SessionDoc) :
  let d' := apply_update (accrual_update decision now) d in
  (decision = "irrelevant" ->
   Session.distractions_blocked (fields d')
   = (Session.distractions_blocked (fields d) + 1)%Z /\
   Session.total_focus_seconds (fields d')
   = Session.total_focus_seconds (fields d)) /\
  (decision <> "irrelevant" ->
   Session.total_focus_seconds (fields d')
   = (Session.total_focus_seconds (fields d) + 30)%Z /\
   Session.distractions_blocked (fields d')
   = Session.distractions_blocked (fields d)) /\
  Session.total_idle_seconds (fields d')
  = Session.total_idle_seconds (fields d) /\
  Session.goal (fields d') = Session.goal (fields d) /\
  Session.categories (fields d') = Session.categories (fields d) /\
  Session.status (fields d') = Session.status (fields d).
Proof.
  unfold apply_update, accrual_update.
  destruct (String.eqb decision "irrelevant") eqn:E; simpl.
  - apply String.eqb_eq in E. repeat split; intros; congruence.
  - apply String.eqb_neq in E. repeat split; intros; congruence.
Qed.

Lemma session_for_after_activity (now : datetime)
    (payload : UpdateActivityRequest.t) (oid : ObjectId)
    (decision reason : string) (db : Store) (sdoc : SessionDoc) :
  ObjectId_of_str (UpdateActivityRequest.session_id payload) = inr oid ->
  List.find (has_id oid) (db_session db) = Some sdoc ->
  session_for (UpdateActivityRequest.session_id payload)
    (after_activity now payload oid decision reason db)
  = Some (apply_update (accrual_update decision now) sdoc).
Proof.
  intros H Hfind. unfold session_for. rewrite H. simpl.
  now apply update_first_find.
Qed.

Lemma session_for_inv (sid : string) (db : Store) (sdoc : SessionDoc) :
  session_for sid db = Some sdoc ->
  exists oid, ObjectId_of_str sid = inr oid /\
              List.find (has_id oid) (db_session db) = Some sdoc.
Proof.
  unfold session_for. destruct (ObjectId_of_str sid) as [e | oid];
    [discriminate |].
  intros H. now exists oid.
Qed.

(** *** [end_session] and [start_session], case by case *)

Lemma end_session_invalid (now : datetime) (payload : EndSessionRequest.t)
    (db : Store) (e : Error) :
  ObjectId_of_str (EndSessionRequest.session_id payload) = inl e ->
  end_session now payload db = (inl e, db).
Proof.
  intros H. unfold end_session, bind. now rewrite H.
Qed.

Lemma end_session_missing (now : datetime) (payload : EndSessionRequest.t)
    (db : Store) (oid : ObjectId) :
  ObjectId_of_str (EndSessionRequest.session_id payload) = inr oid ->
  List.find (has_id oid) (db_session db) = None ->
  end_session now payload db
  = (inl (HTTPException 404 "Session not found"), db).
Proof.
  intros H Hfind. unfold end_session, bind. rewrite H. simpl.
  rewrite find_existsb, Hfind. simpl.
  rewrite (update_first_absent _ _ _ Hfind). now destruct db.
Qed.

Lemma end_session_found (now : datetime) (payload : EndSessionRequest.t)
    (db : Store) (oid : ObjectId) (sdoc : SessionDoc) :
  ObjectId_of_str (EndSessionRequest.session_id payload) = inr oid ->
  List.find (has_id oid) (db_session db) = Some sdoc ->
  end_session now payload db
  = (inr "ended",
     mkStore (db_user db) (update_first oid (end_update now) (db_session db))
       (db_activityevent db) (next_oid db)).
Proof.
  intros H Hfind. unfold end_session, bind. rewrite H. simpl.
  rewrite find_existsb, Hfind. reflexivity.
Qed.

(** The model [start_session] builds from a payload. *)
Lemma start_session_accepts (now : datetime) (payload : StartSessionRequest.t)
    (db : Store) :
  Session.duration_ok (StartSessionRequest.duration_minutes payload) = true ->
  start_session now payload db
  = (inr (ObjectId_str (fresh_oid db), "active"),
     mkStore (db_user db)
       (db_session db ++
          [mkSessionDoc (fresh_oid db)
             (Session.mk
                (StartSessionRequest.user_id payload)
                (StartSessionRequest.goal payload)
                (StartSessionRequest.duration_minutes payload)
                (StartSessionRequest.categories payload)
                (Some (or_Cluely (StartSessionRequest.voice payload)))
                (Some now) None 0 0 0 "active")
             None])
       (db_activityevent db) (N.succ (next_oid db))).
Proof.
  intros H. unfold start_session, bind, Session.validate, Session.errors.
  cbn [Session.duration_minutes Session.status]. rewrite H. reflexivity.
Qed.

(** When the new identifier is not yet in the collection, the string
    [start_session] returns denotes the document it created. *)
Lemma start_session_id_denotes_session (now : datetime)
    (payload : StartSessionRequest.t) (db : Store) :
  Session.duration_ok (StartSessionRequest.duration_minutes payload) = true ->
  List.find (has_id (fresh_oid db)) (db_session db) = None ->
  exists sid st doc,
    start_session now payload db = (inr (sid, st), snd (start_session now payload db)) /\
    session_for sid (snd (start_session now payload db)) = Some doc /\
    Session.goal (fields doc) = StartSessionRequest.goal payload /\
    Session.status (fields doc) = "active".
Proof.
  intros Hok Hfresh. rewrite (start_session_accepts _ _ _ Hok). cbn [snd].
  eexists. eexists. eexists. split; [reflexivity |].
  unfold session_for. rewrite fresh_oid_roundtrip. cbn [db_session].
  rewrite find_app_first, Hfresh. cbn [List.find].
  unfold has_id at 1. cbn [_id]. rewrite String.eqb_refl.
  split; [reflexivity | split; reflexivity].
Qed.

Lemma start_session_rejects (now : datetime) (payload : StartSessionRequest.t)
    (db : Store) :
  Session.duration_ok (StartSessionRequest.duration_minutes payload) = false ->
  start_session now payload db
  = (inl (ValidationError "Session" ["duration_minutes"]), db).
Proof.
  intros H. unfold start_session, bind, Session.validate, Session.errors.
  cbn [Session.duration_minutes Session.status]. rewrite H. reflexivity.
Qed.

Lemma duration_ok_iff (d : Z) :
  Session.duration_ok d = true <-> (1 <= d <= 480)%Z.
Proof. unfold Session.duration_ok. rewrite andb_true_iff. lia. Qed.

(** *** One request *)

Lemma handle_evolves (r : Request) (db : Store) (i : nat) (d : SessionDoc) :
  nth_error (db_session db) i = Some d ->
  exists d', nth_error (db_session (handle db r)) i = Some d' /\ evolves d d'.
Proof.
  intros Hd.
  assert (Hsame : exists d', nth_error (db_session db) i = Some d' /\ evolves d d')
    by (exists d; split; [exact Hd | apply evolves_refl]).
  destruct r as [user | now payload | now payload | now payload | user_id];
    simpl.
  - exact Hsame.
  - destruct (Session.duration_ok (StartSessionRequest.duration_minutes payload))
      eqn:E.
    + rewrite (start_session_accepts _ _ _ E). simpl.
      exists d. split; [| apply evolves_refl].
      rewrite nth_error_app1; [exact Hd |].
      apply nth_error_Some. congruence.
    + rewrite (start_session_rejects _ _ _ E). exact Hsame.
  - destruct (ObjectId_of_str (UpdateActivityRequest.session_id payload))
      as [e | oid] eqn:Eo.
    + rewrite (update_activity_invalid _ _ _ _ Eo). exact Hsame.
    + destruct (List.find (has_id oid) (db_session db)) as [sdoc |] eqn:Ef.
      * rewrite (update_activity_found _ _ _ _ _ Eo Ef). simpl.
        destruct (update_first_nth oid
                    (accrual_update
                       (fst (classify_relevance (Session.goal (fields sdoc))
                               (UpdateActivityRequest.title payload)
                               (UpdateActivityRequest.url payload)
                               (Session.categories (fields sdoc)))) now)
                    _ _ _ Hd) as [H | H]; rewrite H.
        -- exists d. split; [reflexivity | apply evolves_refl].
        -- eexists. split; [reflexivity | apply evolves_accrual].
      * rewrite (update_activity_missing _ _ _ _ Eo Ef). exact Hsame.
  - destruct (ObjectId_of_str (EndSessionRequest.session_id payload))
      as [e | oid] eqn:Eo.
    + rewrite (end_session_invalid _ _ _ _ Eo). exact Hsame.
    + destruct (List.find (has_id oid) (db_session db)) as [sdoc |] eqn:Ef.
      * rewrite (end_session_found _ _ _ _ _ Eo Ef). simpl.
        destruct (update_first_nth oid (end_update now) _ _ _ Hd) as [H | H];
          rewrite H.
        -- exists d. split; [reflexivity | apply evolves_refl].
        -- eexists. split; [reflexivity | apply evolves_end].
      * rewrite (end_session_missing _ _ _ _ Eo Ef). exact Hsame.
  - exact Hsame.
Qed.

Lemma run_evolves (reqs : list Request) (db : Store) (i : nat) (d : SessionDoc) :
  nth_error (db_session db) i = Some d ->
  exists d', nth_error (db_session (run reqs db)) i = Some d' /\ evolves d d'.
Proof.
  revert db d; induction reqs as [|r reqs IH]; intros db d Hd; simpl.
  - exists d. split; [exact Hd | apply evolves_refl].
  - destruct (handle_evolves r db i d Hd) as [d1 [H1 E1]].
    destruct (IH _ _ H1) as [d2 [H2 E2]].
    exists d2. split; [exact H2 | exact (evolves_trans _ _ _ E1 E2)].
Qed.

Lemma run_app (before after : list Request) (db : Store) :
  run (before ++ after) db = run after (run before db).
Proof. unfold run. apply fold_left_app. Qed.

End StoreFacts.

Lemma update_activity_nth (now : datetime) (payload : UpdateActivityRequest.t)
    (db : Store) (i : nat) (d : SessionDoc) :
  nth_error (db_session db) i = Some d ->
  nth_error (db_session (snd (update_activity now payload db))) i = Some d \/
  exists decision,
    nth_error (db_session (snd (update_activity now payload db))) i
    = Some (apply_update (accrual_update decision now) d).
Proof.
  intros Hd.
  destruct (ObjectId_of_str (UpdateActivityRequest.session_id payload))
    as [e | oid] eqn:Eo.
  - rewrite (update_activity_invalid _ _ _ _ Eo). now left.
  - destruct (List.find (has_id oid) (db_session db)) as [sdoc |] eqn:Ef.
    + rewrite (update_activity_found _ _ _ _ _ Eo Ef). simpl.
      destruct (update_first_nth oid
                  (accrual_update
                     (fst (classify_relevance (Session.goal (fields sdoc))
                             (UpdateActivityRequest.title payload)
                             (UpdateActivityRequest.url payload)
                             (Session.categories (fields sdoc)))) now)
                  _ _ _ Hd) as [H | H].
      * now left.
      * right. eexists. exact H.
    + rewrite (update_activity_missing _ _ _ _ Eo Ef). now left.
Qed.

(** C2.  An activity event on an existing session: when the decision is
    "irrelevant", distractions_blocked grows by exactly 1 and
    total_focus_seconds stays; when the decision is "relevant",
    total_focus_seconds grows by exactly 30 and distractions_blocked stays.
    No call of the handler, found or not, idle flag set or not, changes the
    total_idle_seconds of any session document. *)
Theorem accrual_increments :
  (forall now payload db sdoc,
      session_for (UpdateActivityRequest.session_id payload) db = Some sdoc ->
      exists sdoc',
        session_for (UpdateActivityRequest.session_id payload)
          (snd (update_activity now payload db)) = Some sdoc' /\
        (fst (classify_relevance (Session.goal (fields sdoc))
                (UpdateActivityRequest.title payload)
                (UpdateActivityRequest.url payload)
                (Session.categories (fields sdoc))) = "irrelevant" ->
         Session.distractions_blocked (fields sdoc')
         = (Session.distractions_blocked (fields sdoc) + 1)%Z /\
         Session.total_focus_seconds (fields sdoc')
         = Session.total_focus_seconds (fields sdoc)) /\
        (fst (classify_relevance (Session.goal (fields sdoc))
                (UpdateActivityRequest.title payload)
                (UpdateActivityRequest.url payload)
                (Session.categories (fields sdoc))) = "relevant" ->
         Session.total_focus_seconds (fields sdoc')
         = (Session.total_focus_seconds (fields sdoc) + 30)%Z /\
         Session.distractions_blocked (fields sdoc')
         = Session.distractions_blocked (fields sdoc)) /\
        Session.total_idle_seconds (fields sdoc')
        = Session.total_idle_seconds (fields sdoc)) /\
  (forall now payload db i d,
      nth_error (db_session db) i = Some d ->
      exists d',
        nth_error (db_session (snd (update_activity now payload db))) i = Some d' /\
        Session.total_idle_seconds (fields d')
        = Session.total_idle_seconds (fields d)).
Proof.
  split.
  - intros now payload db sdoc Hs.
    destruct (session_for_inv _ _ _ Hs) as [oid [Eo Ef]].
    rewrite (update_activity_found _ _ _ _ _ Eo Ef). cbn [snd].
    eexists. split; [exact (session_for_after_activity _ _ _ _ _ _ _ Eo Ef) |].
    pose proof (accrual_fields
                  (fst (classify_relevance (Session.goal (fields sdoc))
                          (UpdateActivityRequest.title payload)
                          (UpdateActivityRequest.url payload)
                          (Session.categories (fields sdoc)))) now sdoc)
      as [Hirr [Hrel [Hidle _]]].
    split; [exact Hirr | split; [| exact Hidle]].
    intros Hr. apply Hrel. rewrite Hr. discriminate.
  - intros now payload db i d Hd.
    destruct (update_activity_nth now payload db i d Hd) as [H | [dec H]];
      rewrite H.
    + now exists d.
    + eexists. split; [reflexivity |].
      now destruct (accrual_fields dec now d) as [_ [_ [Hidle _]]].
Qed.

Lemma accrual_increments_witness :
  exists sdoc',
    session_for sample_sid (snd (update_activity 2000%Z sample_distraction sample_db))
    = Some sdoc' /\
    Session.distractions_blocked (fields sdoc') = 1%Z /\
    Session.total_focus_seconds (fields sdoc') = 0%Z /\
    Session.total_idle_seconds (fields sdoc') = 0%Z.
Proof.
  destruct (proj1 accrual_increments 2000%Z sample_distraction sample_db
              (mkSessionDoc (be_bytes 12 0)
                 (Session.mk "u1" "finish report" 25 ["social"] (Some "Cluely")
                    (Some 1000%Z) None 0 0 0 "active") None)
              eq_refl) as [sdoc' [Hs [Hirr [_ Hidle]]]].
  exists sdoc'. split; [exact Hs |].
  destruct (Hirr eq_refl) as [Hd Hf].
  repeat split; [exact Hd | exact Hf | exact Hidle].
Defined.

(** C5 as stated fails: on a store without any session document, the
    session_id "abc" does not give a 404; the identifier constructor
    rejects the string and its error is what the handler raises. *)
Lemma malformed_session_id_is_not_404 :
  db_session empty_store = [] /\
  session_for "abc" empty_store = None /\
  update_activity 2000%Z
    (UpdateActivityRequest.mk "abc" "u1" None None None false) empty_store
  = (inl (InvalidId "abc"), empty_store) /\
  fst (update_activity 2000%Z
         (UpdateActivityRequest.mk "abc" "u1" None None None false) empty_store)
  <> inl (HTTPException 404 "Session not found").
Proof.
  repeat split. discriminate.
Qed.

(** C5, as the code has it.  When no session document exists for the
    session_id: if the identifier constructor accepts the string, the call
    fails with 404 "Session not found"; if it rejects the string, the call
    fails with the constructor's InvalidId error.  Either way the store is
    unchanged: no ActivityEvent is created and no counter changes.  When a
    session document exists for the session_id, the call returns the
    classifier's (decision, reason) for the goal and categories of that
    document and the title and url of the event. *)
Theorem update_activity_unknown_session :
  forall now payload db,
    (session_for (UpdateActivityRequest.session_id payload) db = None ->
     (forall oid,
         ObjectId_of_str (UpdateActivityRequest.session_id payload) = inr oid ->
         update_activity now payload db
         = (inl (HTTPException 404 "Session not found"), db)) /\
     (forall e,
         ObjectId_of_str (UpdateActivityRequest.session_id payload) = inl e ->
         update_activity now payload db
         = (inl (InvalidId (UpdateActivityRequest.session_id payload)), db)) /\
     snd (update_activity now payload db) = db) /\
    (forall sdoc,
        session_for (UpdateActivityRequest.session_id payload) db = Some sdoc ->
        fst (update_activity now payload db)
        = inr (classify_relevance (Session.goal (fields sdoc))
                 (UpdateActivityRequest.title payload)
                 (UpdateActivityRequest.url payload)
                 (Session.categories (fields sdoc)))).
Proof.
  intros now payload db. split.
  - intros Hnone. unfold session_for in Hnone.
    destruct (ObjectId_of_str (UpdateActivityRequest.session_id payload))
      as [e | oid] eqn:Eo.
    + pose proof (ObjectId_of_str_error _ _ Eo) as He.
      rewrite (update_activity_invalid _ _ _ _ Eo).
      split; [intros oid H; discriminate |].
      split; [intros e' _; now rewrite He | reflexivity].
    + rewrite (update_activity_missing _ _ _ _ Eo Hnone).
      split; [intros oid' _; reflexivity |].
      split; [intros e' H; discriminate | reflexivity].
  - intros sdoc Hs.
    destruct (session_for_inv _ _ _ Hs) as [oid [Eo Ef]].
    now rewrite (update_activity_found _ _ _ _ _ Eo Ef).
Qed.

Lemma update_activity_unknown_session_witness :
  update_activity 2000%Z
    (UpdateActivityRequest.mk "0000000000000000000000ff" "u1" None None None false)
    sample_db
  = (inl (HTTPException 404 "Session not found"), sample_db) /\
  fst (update_activity 2000%Z sample_distraction sample_db)
  = inr ("irrelevant", "Matched blocked keyword 'twitter' in category 'social'").
Proof.
  split.
  - apply (proj1 (proj1 (update_activity_unknown_session 2000%Z
             (UpdateActivityRequest.mk "0000000000000000000000ff" "u1"
                None None None false) sample_db) eq_refl)
             (be_bytes 12 255)).
    reflexivity.
  - apply (proj2 (update_activity_unknown_session 2000%Z sample_distraction
                    sample_db)
             (mkSessionDoc (be_bytes 12 0)
                (Session.mk "u1" "finish report" 25 ["social"] (Some "Cluely")
                   (Some 1000%Z) None 0 0 0 "active") None)).
    reflexivity.
Defined.

Lemma firstn_subset {A} (n : nat) (l : list A) (x : A) :
  In x (firstn n l) -> In x l.
Proof.
  revert l; induction n as [|n IH]; intros l; simpl; [contradiction |].
  destruct l as [|a l]; simpl; [contradiction |].
  intros [-> | H]; [now left | right; now apply IH].
Qed.

(** C6.  The summary of a user is computed from the documents
    [get_documents] returns, which are at most 50 and are all sessions of
    that user in the store: their number as sessions, the sums of their
    three counters, and streak_days the minimum of their number and 7; the
    store is left as it was.  A user with exactly two sessions with
    counters (60, 0, 1) and (90, 0, 2) gets sessions 2, total_focus_seconds
    150, total_idle_seconds 0, distractions_blocked 3 and streak_days 2. *)
Theorem summary_totals :
  (forall user_id db,
      exists docs,
        get_documents user_id 50 db = (inr docs, db) /\
        (List.length docs <= 50)%nat /\
        (forall d, In d docs ->
                   In d (db_session db) /\
                   Session.user_id (fields d) = user_id) /\
        session_summary user_id db
        = (inr (Summary.mk (len docs)
                  (sum (map (fun s => Session.total_focus_seconds (fields s)) docs))
                  (sum (map (fun s => Session.total_idle_seconds (fields s)) docs))
                  (sum (map (fun s => Session.distractions_blocked (fields s)) docs))
                  (Z.min (len docs) 7)),
           db)) /\
  (forall user_id db d1 d2,
      filter (fun d => String.eqb (Session.user_id (fields d)) user_id)
        (db_session db) = [d1; d2] ->
      Session.total_focus_seconds (fields d1) = 60%Z ->
      Session.total_idle_seconds (fields d1) = 0%Z ->
      Session.distractions_blocked (fields d1) = 1%Z ->
      Session.total_focus_seconds (fields d2) = 90%Z ->
      Session.total_idle_seconds (fields d2) = 0%Z ->
      Session.distractions_blocked (fields d2) = 2%Z ->
      session_summary user_id db = (inr (Summary.mk 2 150 0 3 2), db)).
Proof.
  split.
  - intros user_id db. eexists. split; [reflexivity |].
    split; [apply firstn_le_length |]. split; [| reflexivity].
    intros d Hin. apply firstn_subset in Hin. apply filter_In in Hin.
    destruct Hin as [Hin Hu]. split; [exact Hin |].
    now apply String.eqb_eq.
  - intros user_id db d1 d2 Hf F1 I1 D1 F2 I2 D2.
    unfold session_summary, bind, get_documents. rewrite Hf.
    cbn [firstn map]. unfold sum, len. cbn [fold_left List.length].
    rewrite F1, I1, D1, F2, I2, D2. reflexivity.
Qed.

Lemma summary_totals_witness :
  session_summary "u1" sample_summary_db
  = (inr (Summary.mk 2 150 0 3 2), sample_summary_db).
Proof.
  apply (proj2 summary_totals "u1" sample_summary_db
           (mkSessionDoc (be_bytes 12 0)
              (Session.mk "u1" "read" 30 [] (Some "Cluely") (Some 10%Z)
                 (Some 20%Z) 60 0 1 "ended") None)
           (mkSessionDoc (be_bytes 12 2)
              (Session.mk "u1" "write" 45 [] (Some "Cluely") (Some 30%Z)
                 (Some 40%Z) 90 0 2 "ended") None));
    reflexivity.
Defined.

(** C7.  Take any store reached by a sequence of requests and any session
    document in it, and run any further sequence of requests (user
    registrations, session starts, activity events, end requests,
    summaries).  The document is still at its place with the same
    identifier; none of total_focus_seconds, total_idle_seconds and
    distractions_blocked is smaller than it was; if its status was "ended"
    it is "ended"; and its status is either what it was or "ended". *)
Theorem counters_never_decrease_and_ended_is_terminal :
  forall (db0 : Store) (before after : list Request) (i : nat) (d : SessionDoc),
    nth_error (db_session (run before db0)) i = Some d ->
    exists d',
      nth_error (db_session (run (before ++ after) db0)) i = Some d' /\
      _id d' = _id d /\
      (Session.total_focus_seconds (fields d)
       <= Session.total_focus_seconds (fields d'))%Z /\
      (Session.total_idle_seconds (fields d)
       <= Session.total_idle_seconds (fields d'))%Z /\
      (Session.distractions_blocked (fields d)
       <= Session.distractions_blocked (fields d'))%Z /\
      (Session.status (fields d) = "ended" ->
       Session.status (fields d') = "ended") /\
      (Session.status (fields d') = Session.status (fields d) \/
       Session.status (fields d') = "ended").
Proof.
  intros db0 before after i d Hd.
  rewrite run_app.
  destruct (run_evolves after _ i d Hd) as [d' [Hd' He]].
  exists d'. split; [exact Hd' | exact He].
Qed.

Lemma counters_never_decrease_and_ended_is_terminal_witness :
  exists d',
    nth_error
      (db_session
         (run ([StartSession 1000%Z sample_start;
                Activity 2000%Z sample_distraction;
                EndSession 3000%Z sample_end]
               ++ [Activity 4000%Z sample_work;
                   StartSession 5000%Z sample_start;
                   EndSession 6000%Z sample_end])
            empty_store)) 0 = Some d' /\
    (1 <= Session.distractions_blocked (fields d'))%Z /\
    Session.status (fields d') = "ended".
Proof.
  destruct (counters_never_decrease_and_ended_is_terminal empty_store
              [StartSession 1000%Z sample_start;
               Activity 2000%Z sample_distraction;
               EndSession 3000%Z sample_end]
              [Activity 4000%Z sample_work;
               StartSession 5000%Z sample_start;
               EndSession 6000%Z sample_end]
              0%nat
              (mkSessionDoc (be_bytes 12 0)
                 (Session.mk "u1" "finish report" 25 ["social"] (Some "Cluely")
                    (Some 1000%Z) (Some 3000%Z) 0 0 1 "ended") (Some 2000%Z))
              eq_refl)
    as [d' [Hd' [_ [_ [_ [Hdis [Hend _]]]]]]].
  exists d'. split; [exact Hd' |]. split; [exact Hdis | exact (Hend eq_refl)].
Defined.

(** C8.  [start_session] accepts a payload exactly when its
    duration_minutes is between 1 and 480: then it returns the new
    identifier with status "active" and the store has one more session
    document, with that duration, status "active" and all counters zero;
    otherwise the constructor of the model raises its validation error on
    duration_minutes and the store is unchanged.  So a session is created
    if and only if 1 <= duration_minutes <= 480; 0 and 481 are rejected, 1
    and 480 are accepted. *)
Theorem start_session_duration_bounds :
  (forall now payload db,
      ((1 <= StartSessionRequest.duration_minutes payload <= 480)%Z ->
       fst (start_session now payload db)
       = inr (ObjectId_str (fresh_oid db), "active") /\
       exists doc,
         db_session (snd (start_session now payload db))
         = db_session db ++ [doc] /\
         Session.duration_minutes (fields doc)
         = StartSessionRequest.duration_minutes payload /\
         Session.status (fields doc) = "active" /\
         Session.total_focus_seconds (fields doc) = 0%Z /\
         Session.total_idle_seconds (fields doc) = 0%Z /\
         Session.distractions_blocked (fields doc) = 0%Z) /\
      (~ (1 <= StartSessionRequest.duration_minutes payload <= 480)%Z ->
       start_session now payload db
       = (inl (ValidationError "Session" ["duration_minutes"]), db)) /\
      (List.length (db_session (snd (start_session now payload db)))
       = S (List.length (db_session db)) <->
       (1 <= StartSessionRequest.duration_minutes payload <= 480)%Z)) /\
  (forall now user_id goal categories voice db,
      start_session now
        (StartSessionRequest.mk user_id goal 0 categories voice) db
      = (inl (ValidationError "Session" ["duration_minutes"]), db) /\
      start_session now
        (StartSessionRequest.mk user_id goal 481 categories voice) db
      = (inl (ValidationError "Session" ["duration_minutes"]), db) /\
      fst (start_session now
             (StartSessionRequest.mk user_id goal 1 categories voice) db)
      = inr (ObjectId_str (fresh_oid db), "active") /\
      fst (start_session now
             (StartSessionRequest.mk user_id goal 480 categories voice) db)
      = inr (ObjectId_str (fresh_oid db), "active")).
Proof.
  split.
  - intros now payload db.
    destruct (Session.duration_ok (StartSessionRequest.duration_minutes payload))
      eqn:E.
    + pose proof (proj1 (duration_ok_iff _) E) as Hr.
      rewrite (start_session_accepts _ _ _ E). cbn [fst snd db_session].
      split; [| split].
      * intros _. split; [reflexivity |].
        eexists. split; [reflexivity |]. repeat split.
      * intros Hn. contradiction.
      * split; [intros _; exact Hr |].
        intros _. rewrite length_app. simpl. lia.
    + assert (Hr : ~ (1 <= StartSessionRequest.duration_minutes payload <= 480)%Z).
      { intros Hr. apply duration_ok_iff in Hr. congruence. }
      rewrite (start_session_rejects _ _ _ E). cbn [fst snd].
      split; [| split].
      * intros Hy. contradiction.
      * intros _. reflexivity.
      * split; [intros Hl; lia | intros Hy; contradiction].
  - intros now user_id goal categories voice db.
    repeat split.
Qed.

Lemma start_session_duration_bounds_witness :
  fst (start_session 1000%Z sample_start empty_store)
  = inr ("000000000000000000000000", "active") /\
  start_session 1000%Z (StartSessionRequest.mk "u1" "finish report" 500 [] None)
    empty_store
  = (inl (ValidationError "Session" ["duration_minutes"]), empty_store).
Proof.
  split.
  - apply (proj1 (proj1 start_session_duration_bounds 1000%Z sample_start
                    empty_store)).
    simpl. lia.
  - apply (proj1 (proj2 (proj1 start_session_duration_bounds 1000%Z
             (StartSessionRequest.mk "u1" "finish report" 500 [] None)
             empty_store))).
    simpl. lia.
Defined.

(** C9.  The activity endpoint is not idempotent.  On an existing session
    the same payload applied twice succeeds twice with the same (decision,
    reason), stores two events, and moves the counter twice: an
    "irrelevant" decision takes distractions_blocked from n to n + 1 to
    n + 2, a "relevant" one takes total_focus_seconds from n to n + 30 to
    n + 60.  A session whose status is "ended" is no exception: the call
    succeeds, one of the two counters has moved, and the status stays
    "ended". *)
Theorem activity_is_not_idempotent :
  forall now1 now2 payload db sdoc,
    session_for (UpdateActivityRequest.session_id payload) db = Some sdoc ->
    exists sdoc1 sdoc2,
      fst (update_activity now1 payload db)
      = inr (classify_relevance (Session.goal (fields sdoc))
               (UpdateActivityRequest.title payload)
               (UpdateActivityRequest.url payload)
               (Session.categories (fields sdoc))) /\
      fst (update_activity now2 payload (snd (update_activity now1 payload db)))
      = fst (update_activity now1 payload db) /\
      session_for (UpdateActivityRequest.session_id payload)
        (snd (update_activity now1 payload db)) = Some sdoc1 /\
      session_for (UpdateActivityRequest.session_id payload)
        (snd (update_activity now2 payload
                (snd (update_activity now1 payload db)))) = Some sdoc2 /\
      List.length
        (db_activityevent
           (snd (update_activity now2 payload
                   (snd (update_activity now1 payload db)))))
      = S (S (List.length (db_activityevent db))) /\
      (fst (classify_relevance (Session.goal (fields sdoc))
              (UpdateActivityRequest.title payload)
              (UpdateActivityRequest.url payload)
              (Session.categories (fields sdoc))) = "irrelevant" ->
       Session.distractions_blocked (fields sdoc1)
       = (Session.distractions_blocked (fields sdoc) + 1)%Z /\
       Session.distractions_blocked (fields sdoc2)
       = (Session.distractions_blocked (fields sdoc) + 2)%Z /\
       Session.total_focus_seconds (fields sdoc2)
       = Session.total_focus_seconds (fields sdoc)) /\
      (fst (classify_relevance (Session.goal (fields sdoc))
              (UpdateActivityRequest.title payload)
              (UpdateActivityRequest.url payload)
              (Session.categories (fields sdoc))) = "relevant" ->
       Session.total_focus_seconds (fields sdoc1)
       = (Session.total_focus_seconds (fields sdoc) + 30)%Z /\
       Session.total_focus_seconds (fields sdoc2)
       = (Session.total_focus_seconds (fields sdoc) + 60)%Z /\
       Session.distractions_blocked (fields sdoc2)
       = Session.distractions_blocked (fields sdoc)) /\
      (Session.status (fields sdoc) = "ended" ->
       Session.status (fields sdoc1) = "ended" /\
       (Session.distractions_blocked (fields sdoc1)
        = (Session.distractions_blocked (fields sdoc) + 1)%Z \/
        Session.total_focus_seconds (fields sdoc1)
        = (Session.total_focus_seconds (fields sdoc) + 30)%Z)).
Proof.
  intros now1 now2 payload db sdoc Hs.
  destruct (session_for_inv _ _ _ Hs) as [oid [Eo Ef]].
  set (r := classify_relevance (Session.goal (fields sdoc))
              (UpdateActivityRequest.title payload)
              (UpdateActivityRequest.url payload)
              (Session.categories (fields sdoc))).
  pose proof (update_activity_found now1 payload db oid sdoc Eo Ef) as H1.
  cbv zeta in H1. fold r in H1.
  set (sdoc1 := apply_update (accrual_update (fst r) now1) sdoc).
  pose proof (session_for_after_activity now1 payload oid (fst r) (snd r)
                db sdoc Eo Ef) as Hs1.
  fold sdoc1 in Hs1.
  destruct (accrual_fields (fst r) now1 sdoc)
    as [Hi1 [Hr1 [_ [Hg1 [Hc1 Hst1]]]]].
  fold sdoc1 in Hi1, Hr1, Hg1, Hc1, Hst1.
  destruct (session_for_inv _ _ _ Hs1) as [oid1 [Eo1 Ef1]].
  pose proof (update_activity_found now2 payload _ oid1 sdoc1 Eo1 Ef1) as H2.
  cbv zeta in H2. rewrite Hg1, Hc1 in H2. fold r in H2.
  set (sdoc2 := apply_update (accrual_update (fst r) now2) sdoc1).
  pose proof (session_for_after_activity now2 payload oid1 (fst r) (snd r)
                _ sdoc1 Eo1 Ef1) as Hs2.
  fold sdoc2 in Hs2.
  destruct (accrual_fields (fst r) now2 sdoc1) as [Hi2 [Hr2 _]].
  fold sdoc2 in Hi2, Hr2.
  exists sdoc1, sdoc2.
  rewrite H1. cbn [fst snd]. rewrite H2. cbn [fst snd].
  split; [reflexivity |]. split; [reflexivity |].
  split; [exact Hs1 |]. split; [exact Hs2 |].
  split.
  { unfold after_activity. cbn [db_activityevent].
    rewrite !length_app. simpl. lia. }
  split; [| split].
  - intros Hirr. destruct (Hi1 Hirr) as [A1 B1]. destruct (Hi2 Hirr) as [A2 B2].
    repeat split; [exact A1 | rewrite A2, A1; lia | now rewrite B2, B1].
  - intros Hrel.
    assert (Hne : fst r <> "irrelevant") by (rewrite Hrel; discriminate).
    destruct (Hr1 Hne) as [A1 B1]. destruct (Hr2 Hne) as [A2 B2].
    repeat split; [exact A1 | rewrite A2, A1; lia | now rewrite B2, B1].
  - intros Hended. split; [now rewrite Hst1 |].
    destruct (String.eqb_spec (fst r) "irrelevant") as [Hirr | Hne].
    + left. exact (proj1 (Hi1 Hirr)).
    + right. exact (proj1 (Hr1 Hne)).
Qed.

Lemma activity_is_not_idempotent_witness :
  exists sdoc1 sdoc2,
    session_for sample_sid
      (snd (update_activity 4000%Z sample_distraction
              (run [EndSession 3000%Z sample_end] sample_db))) = Some sdoc1 /\
    session_for sample_sid
      (snd (update_activity 5000%Z sample_distraction
              (snd (update_activity 4000%Z sample_distraction
                      (run [EndSession 3000%Z sample_end] sample_db)))))
    = Some sdoc2 /\
    Session.distractions_blocked (fields sdoc1) = 1%Z /\
    Session.distractions_blocked (fields sdoc2) = 2%Z /\
    Session.status (fields sdoc1) = "ended".
Proof.
  destruct (activity_is_not_idempotent 4000%Z 5000%Z sample_distraction
              (run [EndSession 3000%Z sample_end] sample_db)
              (mkSessionDoc (be_bytes 12 0)
                 (Session.mk "u1" "finish report" 25 ["social"] (Some "Cluely")
                    (Some 1000%Z) (Some 3000%Z) 0 0 0 "ended") None)
              eq_refl)
    as [sdoc1 [sdoc2 [_ [_ [Hs1 [Hs2 [_ [Hirr [_ Hend]]]]]]]]].
  exists sdoc1, sdoc2.
  destruct (Hirr eq_refl) as [A1 [A2 _]].
  destruct (Hend eq_refl) as [E1 _].
  repeat split; [exact Hs1 | exact Hs2 | exact A1 | exact A2 | exact E1].
Defined.

(** The end-to-end scenario of the specification: a session of 25 minutes
    is active; three distracting events give distractions_blocked 3 and
    total_focus_seconds 0; the session ends; a further event on the same
    identifier still succeeds and still counts. *)
Example end_to_end :
  let db3 :=
    run [StartSession 1000%Z sample_start;
         Activity 2000%Z sample_distraction;
         Activity 2030%Z sample_distraction;
         Activity 2060%Z sample_distraction] empty_store in
  let db4 := run [EndSession 3000%Z sample_end] db3 in
  option_map (fun d => (Session.distractions_blocked (fields d),
                        Session.total_focus_seconds (fields d),
                        Session.status (fields d)))
    (session_for sample_sid db3) = Some (3%Z, 0%Z, "active") /\
  fst (end_session 3000%Z sample_end db3) = inr "ended" /\
  fst (update_activity 4000%Z sample_work db4)
  = inr ("relevant", "Goal keywords found in current context") /\
  option_map (fun d => (Session.distractions_blocked (fields d),
                        Session.total_focus_seconds (fields d),
                        Session.status (fields d)))
    (session_for sample_sid (snd (update_activity 4000%Z sample_work db4)))
  = Some (3%Z, 30%Z, "ended").
Proof. repeat split. Qed.

(** * Further properties *)

(** ** The classifier *)

Section ClassifierMore.

Lemma dict_get_absent (d : list (string * list string)) (key : string) :
  existsb (fun kv => String.eqb (fst kv) key) d = false -> dict_get d key = [].
Proof.
  induction d as [|[k v] d IH]; simpl; [reflexivity |].
  destruct (String.eqb k key); simpl; [discriminate | exact IH].
Qed.

Lemma blocked_match_known (categories : list string) (text : string) :
  blocked_match (filter known_category categories) text
  = blocked_match categories text.
Proof.
  induction categories as [|c cs IH]; [reflexivity |].
  cbn [filter]. destruct (known_category c) eqn:E; cbn [blocked_match].
  - now rewrite IH.
  - unfold known_category in E. rewrite (dict_get_absent _ _ E). exact IH.
Qed.

Lemma decision_by_blocked_match (goal : string) (title url : option string)
    (categories : list string) :
  fst (classify_relevance goal title url categories) = "irrelevant" <->
  blocked_match categories (blob goal title url) <> None.
Proof.
  unfold classify_relevance.
  destruct (blocked_match categories (blob goal title url)) as [[c k]|].
  - split; [discriminate | reflexivity].
  - destruct (existsb _ _); split; intros H; try discriminate; now elim H.
Qed.

Lemma blocked_match_hit_iff (categories : list string) (text : string) :
  blocked_match categories text <> None <->
  exists cat kw,
    In cat categories /\ In kw (dict_get BLOCKLIST_KEYWORDS cat) /\
    contains kw text = true.
Proof.
  split.
  - destruct (blocked_match categories text) as [[c k]|] eqn:E;
      [| intros H; now elim H].
    intros _. exists c, k. now apply blocked_match_Some.
  - intros [cat [kw [Hc [Hk Hin]]]] Hnone.
    rewrite (proj1 (blocked_match_None _ _) Hnone cat kw Hc Hk) in Hin.
    discriminate.
Qed.

Lemma lower_char_idem (c : ascii) : lower_char (lower_char c) = lower_char c.
Proof. destruct c as [[] [] [] [] [] [] [] []]; reflexivity. Qed.

Lemma lower_idem (s : string) : lower (lower s) = lower s.
Proof.
  induction s as [|c s IH]; simpl; [reflexivity |].
  now rewrite lower_char_idem, IH.
Qed.

Lemma contains_app_r (w a b : string) :
  contains w b = true -> contains w (a ++ b)%string = true.
Proof.
  rewrite !contains_iff. intros [pre [post H]].
  exists (a ++ pre)%string, post. now rewrite H, !sapp_assoc.
Qed.

Lemma contains_char_cons (sep c : ascii) (s : string) :
  contains (String sep "") (String c s) = false ->
  sep <> c /\ contains (String sep "") s = false.
Proof.
  cbn [contains]. intros H. apply orb_false_iff in H. destruct H as [Hp Hc].
  split; [| exact Hc].
  intros ->. simpl in Hp. destruct (ascii_dec c c) as [_ | Hne].
  - destruct s; discriminate.
  - now elim Hne.
Qed.

Lemma prefix_before_separator (kw u : string) (sep : ascii) (v : string) :
  contains (String sep "") kw = false ->
  prefix kw (u ++ String sep v)%string = true -> prefix kw u = true.
Proof.
  revert u; induction kw as [|c kw IH]; intros u Hsep.
  - now destruct u.
  - destruct (contains_char_cons _ _ _ Hsep) as [Hne Hrest].
    destruct u as [|x u]; simpl.
    + destruct (ascii_dec c sep) as [-> | _]; [now elim Hne | discriminate].
    + destruct (ascii_dec c x); [now apply IH | discriminate].
Qed.

(** A word without the separator occurs in [a + sep + b] only inside [a]
    or inside [b]. *)
Lemma contains_across_separator (kw a : string) (sep : ascii) (b : string) :
  contains (String sep "") kw = false ->
  contains kw (a ++ String sep b)%string = contains kw a || contains kw b.
Proof.
  intros Hsep.
  destruct (contains kw a || contains kw b) eqn:E.
  - apply orb_true_iff in E. destruct E as [E | E].
    + now apply contains_app_l.
    + apply (contains_app_r kw (a ++ String sep "")%string b) in E.
      now rewrite sapp_assoc in E.
  - apply orb_false_iff in E. destruct E as [Ea Eb].
    apply not_true_is_false. intros Hin.
    revert Ea Hin. induction a as [|x a IH]; intros Ea Hin.
    + cbn [append contains] in Hin. apply orb_true_iff in Hin.
      destruct Hin as [Hp | Hc]; [| congruence].
      apply (prefix_before_separator kw "" sep b Hsep) in Hp.
      cbn [contains] in Ea. rewrite Hp in Ea. discriminate.
    + cbn [contains] in Ea. apply orb_false_iff in Ea. destruct Ea as [Ep Ea].
      change (String x a ++ String sep b)%string
        with (String x (a ++ String sep b)%string) in Hin.
      cbn [contains] in Hin. apply orb_true_iff in Hin.
      destruct Hin as [Hp | Hc]; [| now apply IH].
      apply (prefix_before_separator kw (String x a) sep b Hsep) in Hp.
      congruence.
Qed.

End ClassifierMore.

(** X1.  The decision is "irrelevant" exactly when some keyword listed in
    the table under one of the categories of the argument occurs in the
    blob; in every other case it is "relevant". *)
Theorem irrelevant_iff_enabled_keyword :
  forall goal title url categories,
    (fst (classify_relevance goal title url categories) = "irrelevant" <->
     exists cat kw,
       In cat categories /\ In kw (dict_get BLOCKLIST_KEYWORDS cat) /\
       contains kw (blob goal title url) = true) /\
    (fst (classify_relevance goal title url categories) = "relevant" <->
     no_blocked_keyword categories (blob goal title url)).
Proof.
  intros goal title url categories. split.
  - rewrite decision_by_blocked_match. apply blocked_match_hit_iff.
  - rewrite <- blocked_match_None. unfold classify_relevance.
    destruct (blocked_match categories (blob goal title url)) as [[c k]|].
    + split; discriminate.
    + destruct (existsb _ _); split; reflexivity.
Qed.

(** X2.  A category that is not a key of the table contributes nothing:
    the result is the one for the list with such categories removed, and
    with only such categories the decision is "relevant". *)
Theorem unknown_categories_are_ignored :
  forall goal title url categories,
    classify_relevance goal title url categories
    = classify_relevance goal title url (filter known_category categories) /\
    (filter known_category categories = [] ->
     fst (classify_relevance goal title url categories) = "relevant").
Proof.
  intros goal title url categories.
  assert (H : classify_relevance goal title url categories
              = classify_relevance goal title url
                  (filter known_category categories)).
  { unfold classify_relevance. now rewrite blocked_match_known. }
  split; [exact H |].
  intros Hnil. rewrite H, Hnil. unfold classify_relevance. cbn [blocked_match].
  now destruct (existsb _ _).
Qed.

Lemma unknown_categories_are_ignored_witness :
  fst (classify_relevance "finish report" (Some "Twitter feed") None
         ["Social"; "news"]) = "relevant".
Proof.
  apply (proj2 (unknown_categories_are_ignored "finish report"
                  (Some "Twitter feed") None ["Social"; "news"])).
  reflexivity.
Defined.

(** X3.  The classifier is case-insensitive in goal, title and url, and a
    missing title or url counts as an empty one: two inputs whose three
    fields agree after lowercasing get the same result, and so does the
    input with the three fields already lowercased. *)
Theorem classify_is_case_insensitive :
  forall goal title url categories,
    (forall goal' title' url',
        lower goal = lower goal' ->
        lower (or_empty title) = lower (or_empty title') ->
        lower (or_empty url) = lower (or_empty url') ->
        classify_relevance goal title url categories
        = classify_relevance goal' title' url' categories) /\
    classify_relevance goal title url categories
    = classify_relevance (lower goal) (Some (lower (or_empty title)))
        (Some (lower (or_empty url))) categories.
Proof.
  intros goal title url categories.
  assert (H : forall goal' title' url',
             lower goal = lower goal' ->
             lower (or_empty title) = lower (or_empty title') ->
             lower (or_empty url) = lower (or_empty url') ->
             classify_relevance goal title url categories
             = classify_relevance goal' title' url' categories).
  { intros goal' title' url' Hg Ht Hu.
    unfold classify_relevance, blob, goal_words. now rewrite Hg, Ht, Hu. }
  split; [exact H |].
  apply H; cbn [or_empty]; now rewrite lower_idem.
Qed.

Lemma classify_is_case_insensitive_witness :
  classify_relevance "Finish Report" (Some "TWITTER Feed") None ["social"]
  = classify_relevance "finish report" (Some "twitter feed") (Some "")
      ["social"].
Proof.
  apply (proj1 (classify_is_case_insensitive "Finish Report"
                  (Some "TWITTER Feed") None ["social"])); reflexivity.
Defined.

(** X4.  The decision grows with the set of categories and does not depend
    on their order or on repetitions: if every category of one list is in a
    second list and the first list gives "irrelevant", so does the second;
    two lists with the same members give the same decision. *)
Theorem decision_depends_on_the_set_of_categories :
  forall goal title url categories categories',
    ((forall c, In c categories -> In c categories') ->
     fst (classify_relevance goal title url categories) = "irrelevant" ->
     fst (classify_relevance goal title url categories') = "irrelevant") /\
    ((forall c, In c categories <-> In c categories') ->
     fst (classify_relevance goal title url categories)
     = fst (classify_relevance goal title url categories')).
Proof.
  intros goal title url categories categories'.
  assert (Hmono : forall cs cs',
             (forall c, In c cs -> In c cs') ->
             fst (classify_relevance goal title url cs) = "irrelevant" ->
             fst (classify_relevance goal title url cs') = "irrelevant").
  { intros cs cs' Hsub. rewrite !decision_by_blocked_match.
    rewrite !blocked_match_hit_iff.
    intros [cat [kw [Hc [Hk Hin]]]]. exists cat, kw. auto. }
  split; [apply Hmono |].
  intros Hsame.
  destruct (classify_decision goal title url categories) as [Hr | Hi].
  - destruct (classify_decision goal title url categories') as [Hr' | Hi'].
    + now rewrite Hr, Hr'.
    + assert (Hi : fst (classify_relevance goal title url categories)
                   = "irrelevant")
        by (apply (Hmono categories' categories);
            [intros c; apply Hsame | exact Hi']).
      rewrite Hi in Hr. discriminate.
  - rewrite Hi. symmetry.
    apply (Hmono categories categories'); [intros c; apply Hsame | exact Hi].
Qed.

Lemma decision_depends_on_the_set_of_categories_witness :
  fst (classify_relevance "x" (Some "steam twitter") None ["games"; "social"])
  = fst (classify_relevance "x" (Some "steam twitter") None
           ["social"; "games"; "social"]).
Proof.
  apply (proj2 (decision_depends_on_the_set_of_categories "x"
                  (Some "steam twitter") None ["games"; "social"]
                  ["social"; "games"; "social"])).
  intros c. simpl. tauto.
Defined.

(** X5.  The separator keeps a keyword without a space from matching
    across two fields: such a keyword occurs in the blob exactly when it
    occurs in the lowercased goal, title or url.  Every keyword of the
    table but "league of legends" is of that kind; that one does match
    across the goal and the title. *)
Theorem keyword_matches_within_one_field :
  (forall kw goal title url,
      contains " " kw = false ->
      contains kw (blob goal title url)
      = contains kw (lower goal) || contains kw (lower (or_empty title))
        || contains kw (lower (or_empty url))) /\
  (forall cat kw,
      In kw (dict_get BLOCKLIST_KEYWORDS cat) ->
      kw <> "league of legends" -> contains " " kw = false) /\
  (contains "league of legends" (lower "join a league") = false /\
   contains "league of legends" (lower "of legends wiki") = false /\
   classify_relevance "join a league" (Some "of legends wiki") None ["games"]
   = ("irrelevant", matched_reason "league of legends" "games")).
Proof.
  split; [| split].
  - intros kw goal title url Hsep. unfold blob. cbn [join].
    change (lower goal ++ " " ++ lower (or_empty title) ++ " "
              ++ lower (or_empty url))%string
      with (lower goal ++ String " "%char
              (lower (or_empty title) ++ String " "%char
                 (lower (or_empty url))))%string.
    rewrite !(contains_across_separator _ _ _ _ Hsep).
    now rewrite orb_assoc.
  - intros cat kw Hin Hne.
    assert (Hall : forallb (fun kv =>
                      forallb (fun k => String.eqb k "league of legends"
                                        || negb (contains " " k)) (snd kv))
                     BLOCKLIST_KEYWORDS = true) by reflexivity.
    assert (Hrow : forall d,
               forallb (fun kv =>
                 forallb (fun k => String.eqb k "league of legends"
                                   || negb (contains " " k)) (snd kv)) d = true ->
               In kw (dict_get d cat) ->
               String.eqb kw "league of legends" || negb (contains " " kw) = true).
    { induction d as [|[k v] d IH]; simpl; [intros _ [] |].
      intros Hd. apply andb_true_iff in Hd. destruct Hd as [Hv Hd].
      destruct (String.eqb k cat).
      - intros Hk. exact (proj1 (forallb_forall _ v) Hv kw Hk).
      - now apply IH. }
    pose proof (Hrow _ Hall Hin) as H. apply orb_true_iff in H.
    destruct H as [H | H].
    + apply String.eqb_eq in H. contradiction.
    + now apply negb_true_iff in H.
  - repeat split.
Qed.

Lemma keyword_matches_within_one_field_witness :
  contains "twitter" (blob "tweet" (Some "Twit") (Some "ter.example")) = false.
Proof.
  rewrite (proj1 keyword_matches_within_one_field "twitter" "tweet"
             (Some "Twit") (Some "ter.example")); reflexivity.
Defined.

(** X6.  The goal is part of the blob, so a goal that itself contains a
    keyword of an enabled category makes every event of the session
    "irrelevant", whatever its title and url. *)
Theorem blocked_keyword_in_goal_blocks_every_event :
  forall goal categories cat kw,
    In cat categories ->
    In kw (dict_get BLOCKLIST_KEYWORDS cat) ->
    contains kw (lower goal) = true ->
    forall title url,
      fst (classify_relevance goal title url categories) = "irrelevant".
Proof.
  intros goal categories cat kw Hc Hk Hin title url.
  apply decision_by_blocked_match, blocked_match_hit_iff.
  exists cat, kw. repeat split; try assumption.
  unfold blob. cbn [join]. now apply contains_app_l.
Qed.

Lemma blocked_keyword_in_goal_blocks_every_event_witness :
  fst (classify_relevance "Reply to customers on Twitter"
         (Some "Support inbox") (Some "https://mail.example.org")
         ["social"]) = "irrelevant".
Proof.
  apply (blocked_keyword_in_goal_blocks_every_event
           "Reply to customers on Twitter" ["social"] "social" "twitter").
  - simpl. now left.
  - simpl. now left.
  - reflexivity.
Defined.

(** ** The handlers *)

Section HandlersMore.

Lemma update_first_nth_other (oid : ObjectId) (u : Update)
    (docs : list SessionDoc) (i : nat) (d : SessionDoc) :
  nth_error docs i = Some d -> has_id oid d = false ->
  nth_error (update_first oid u docs) i = Some d.
Proof.
  revert i; induction docs as [|d0 docs IH]; intros i; simpl.
  - destruct i; discriminate.
  - destruct (has_id oid d0) eqn:E.
    + destruct i; simpl; [| tauto].
      intros H Hd. inversion H; subst. congruence.
    + destruct i; simpl; [tauto | apply IH].
Qed.

Lemma has_id_other (sid : string) (oid : ObjectId) (d : SessionDoc) :
  ObjectId_of_str sid = inr oid -> ObjectId_of_str sid <> inr (_id d) ->
  has_id oid d = false.
Proof.
  intros Ho Hne. unfold has_id. apply String.eqb_neq.
  intros Heq. apply Hne. now rewrite Ho, Heq.
Qed.

Lemma session_for_after_end (now : datetime) (sid : string) (oid : ObjectId)
    (db : Store) (sdoc : SessionDoc) :
  ObjectId_of_str sid = inr oid ->
  List.find (has_id oid) (db_session db) = Some sdoc ->
  session_for sid
    (mkStore (db_user db) (update_first oid (end_update now) (db_session db))
       (db_activityevent db) (next_oid db))
  = Some (apply_update (end_update now) sdoc).
Proof.
  intros H Hfind. unfold session_for. rewrite H. cbn [db_session].
  now apply update_first_find.
Qed.

End HandlersMore.

(** X7.  [end_session] on a session_id for which no session document
    exists: if the identifier constructor accepts the string the call
    fails with 404 "Session not found", otherwise with the constructor's
    InvalidId error; in both cases the store is left exactly as it was. *)
Theorem end_session_unknown_session :
  forall now payload db,
    session_for (EndSessionRequest.session_id payload) db = None ->
    (forall oid,
        ObjectId_of_str (EndSessionRequest.session_id payload) = inr oid ->
        end_session now payload db
        = (inl (HTTPException 404 "Session not found"), db)) /\
    (forall e,
        ObjectId_of_str (EndSessionRequest.session_id payload) = inl e ->
        end_session now payload db
        = (inl (InvalidId (EndSessionRequest.session_id payload)), db)).
Proof.
  intros now payload db Hnone. unfold session_for in Hnone.
  destruct (ObjectId_of_str (EndSessionRequest.session_id payload))
    as [e | oid] eqn:Eo.
  - pose proof (ObjectId_of_str_error _ _ Eo) as He.
    rewrite (end_session_invalid _ _ _ _ Eo).
    split; [intros oid H; discriminate | intros e' _; now rewrite He].
  - rewrite (end_session_missing _ _ _ _ Eo Hnone).
    split; [intros oid' _; reflexivity | intros e' H; discriminate].
Qed.

Lemma end_session_unknown_session_witness :
  end_session 3000%Z (EndSessionRequest.mk "0000000000000000000000FF") sample_db
  = (inl (HTTPException 404 "Session not found"), sample_db) /\
  end_session 3000%Z (EndSessionRequest.mk "not-an-id") sample_db
  = (inl (InvalidId "not-an-id"), sample_db).
Proof.
  split.
  - apply (proj1 (end_session_unknown_session 3000%Z
                    (EndSessionRequest.mk "0000000000000000000000FF")
                    sample_db eq_refl) (be_bytes 12 255)).
    reflexivity.
  - apply (proj2 (end_session_unknown_session 3000%Z
                    (EndSessionRequest.mk "not-an-id") sample_db eq_refl)
             (InvalidId "not-an-id")).
    reflexivity.
Defined.

(** X8.  [end_session] on an existing session returns "ended"; the
    document gets status "ended" and ended_at the time of the call, and
    keeps its counters, its goal, categories, duration and start time and
    its updated_at stamp; the users, the events, the number of session
    documents and the identifier counter are unchanged. *)
Theorem end_session_marks_the_session_ended :
  forall now payload db sdoc,
    session_for (EndSessionRequest.session_id payload) db = Some sdoc ->
    exists sdoc',
      fst (end_session now payload db) = inr "ended" /\
      session_for (EndSessionRequest.session_id payload)
        (snd (end_session now payload db)) = Some sdoc' /\
      Session.status (fields sdoc') = "ended" /\
      Session.ended_at (fields sdoc') = Some now /\
      Session.total_focus_seconds (fields sdoc')
      = Session.total_focus_seconds (fields sdoc) /\
      Session.total_idle_seconds (fields sdoc')
      = Session.total_idle_seconds (fields sdoc) /\
      Session.distractions_blocked (fields sdoc')
      = Session.distractions_blocked (fields sdoc) /\
      Session.goal (fields sdoc') = Session.goal (fields sdoc) /\
      Session.categories (fields sdoc') = Session.categories (fields sdoc) /\
      Session.duration_minutes (fields sdoc')
      = Session.duration_minutes (fields sdoc) /\
      Session.started_at (fields sdoc') = Session.started_at (fields sdoc) /\
      updated_at sdoc' = updated_at sdoc /\
      db_user (snd (end_session now payload db)) = db_user db /\
      db_activityevent (snd (end_session now payload db)) = db_activityevent db /\
      List.length (db_session (snd (end_session now payload db)))
      = List.length (db_session db) /\
      next_oid (snd (end_session now payload db)) = next_oid db.
Proof.
  intros now payload db sdoc Hs.
  destruct (session_for_inv _ _ _ Hs) as [oid [Eo Ef]].
  rewrite (end_session_found _ _ _ _ _ Eo Ef). cbn [fst snd].
  exists (apply_update (end_update now) sdoc).
  split; [reflexivity |].
  split; [exact (session_for_after_end now _ oid db sdoc Eo Ef) |].
  cbn [db_user db_activityevent db_session next_oid].
  rewrite update_first_length.
  repeat split.
Qed.

Lemma end_session_marks_the_session_ended_witness :
  exists sdoc',
    fst (end_session 3000%Z sample_end sample_db) = inr "ended" /\
    session_for sample_sid (snd (end_session 3000%Z sample_end sample_db))
    = Some sdoc' /\
    Session.status (fields sdoc') = "ended" /\
    Session.ended_at (fields sdoc') = Some 3000%Z.
Proof.
  destruct (end_session_marks_the_session_ended 3000%Z sample_end sample_db
              (mkSessionDoc (be_bytes 12 0)
                 (Session.mk "u1" "finish report" 25 ["social"] (Some "Cluely")
                    (Some 1000%Z) None 0 0 0 "active") None)
              eq_refl) as [sdoc' [H1 [H2 [H3 [H4 _]]]]].
  exists sdoc'. repeat split; assumption.
Defined.

(** X9.  Ending is not guarded by the status: a second [end_session] on
    the same session succeeds like the first, the status stays "ended" and
    ended_at is overwritten with the time of the later call. *)
Theorem end_session_can_be_repeated :
  forall now1 now2 payload db sdoc,
    session_for (EndSessionRequest.session_id payload) db = Some sdoc ->
    exists sdoc2,
      fst (end_session now2 payload (snd (end_session now1 payload db)))
      = inr "ended" /\
      session_for (EndSessionRequest.session_id payload)
        (snd (end_session now2 payload (snd (end_session now1 payload db))))
      = Some sdoc2 /\
      Session.status (fields sdoc2) = "ended" /\
      Session.ended_at (fields sdoc2) = Some now2.
Proof.
  intros now1 now2 payload db sdoc Hs.
  destruct (session_for_inv _ _ _ Hs) as [oid [Eo Ef]].
  rewrite (end_session_found now1 _ _ _ _ Eo Ef). cbn [snd].
  set (db1 := mkStore (db_user db)
                (update_first oid (end_update now1) (db_session db))
                (db_activityevent db) (next_oid db)).
  assert (Ef1 : List.find (has_id oid) (db_session db1)
                = Some (apply_update (end_update now1) sdoc))
    by exact (update_first_find oid (end_update now1) _ _ Ef).
  rewrite (end_session_found now2 payload db1 oid _ Eo Ef1). cbn [fst snd].
  eexists. split; [reflexivity |].
  split; [exact (session_for_after_end now2 _ oid db1 _ Eo Ef1) |].
  split; reflexivity.
Qed.

Lemma end_session_can_be_repeated_witness :
  exists sdoc2,
    fst (end_session 9000%Z sample_end (snd (end_session 3000%Z sample_end sample_db)))
    = inr "ended" /\
    session_for sample_sid
      (snd (end_session 9000%Z sample_end
              (snd (end_session 3000%Z sample_end sample_db)))) = Some sdoc2 /\
    Session.status (fields sdoc2) = "ended" /\
    Session.ended_at (fields sdoc2) = Some 9000%Z.
Proof.
  apply (end_session_can_be_repeated 3000%Z 9000%Z sample_end sample_db
           (mkSessionDoc (be_bytes 12 0)
              (Session.mk "u1" "finish report" 25 ["social"] (Some "Cluely")
                 (Some 1000%Z) None 0 0 0 "active") None)).
  reflexivity.
Defined.

(** X10.  A successful [update_activity] stores exactly one event, after
    the events already there: the fields of the payload, the time of the
    call, the device "web", and the very decision and reason it returns;
    the users are unchanged.  A failing call leaves the store as it was. *)
Theorem activity_logs_what_it_returns :
  forall now payload db,
    (forall decision reason db',
        update_activity now payload db = (inr (decision, reason), db') ->
        exists oid,
          db_activityevent db'
          = db_activityevent db ++
            [(oid,
              ActivityEvent.mk
                (UpdateActivityRequest.session_id payload)
                (UpdateActivityRequest.user_id payload)
                now (Some "web")
                (UpdateActivityRequest.app payload)
                (UpdateActivityRequest.url payload)
                (UpdateActivityRequest.title payload)
                (UpdateActivityRequest.idle payload)
                (Some decision) (Some reason))] /\
          db_user db' = db_user db) /\
    (forall e db', update_activity now payload db = (inl e, db') -> db' = db).
Proof.
  intros now payload db.
  destruct (ObjectId_of_str (UpdateActivityRequest.session_id payload))
    as [e0 | oid] eqn:Eo.
  - rewrite (update_activity_invalid _ _ _ _ Eo).
    split; [intros d r db' H; discriminate | intros e db' H; now inversion H].
  - destruct (List.find (has_id oid) (db_session db)) as [sdoc |] eqn:Ef.
    + rewrite (update_activity_found _ _ _ _ _ Eo Ef).
      split; [| intros e db' H; discriminate].
      intros d r db' H. inversion H as [[Hr Hdb]].
      rewrite Hr. cbn [fst snd db_activityevent db_user after_activity].
      eexists. split; reflexivity.
    + rewrite (update_activity_missing _ _ _ _ Eo Ef).
      split; [intros d r db' H; discriminate | intros e db' H; now inversion H].
Qed.

Lemma activity_logs_what_it_returns_witness :
  exists oid,
    db_activityevent (snd (update_activity 2000%Z sample_distraction sample_db))
    = db_activityevent sample_db ++
      [(oid,
        ActivityEvent.mk sample_sid "u1" 2000%Z (Some "web") None None
          (Some "Twitter feed") true (Some "irrelevant")
          (Some "Matched blocked keyword 'twitter' in category 'social'"))] /\
    db_user (snd (update_activity 2000%Z sample_distraction sample_db))
    = db_user sample_db.
Proof.
  apply (proj1 (activity_logs_what_it_returns 2000%Z sample_distraction
                  sample_db)
           "irrelevant" "Matched blocked keyword 'twitter' in category 'social'").
  reflexivity.
Defined.

(** X11.  [update_activity] looks only at session_id, title and url of the
    payload: two payloads that agree on these three get the same answer
    and leave the same session documents, whatever their user_id, app and
    idle flag.  In particular the user_id of the event is not compared
    with the owner of the session. *)
Theorem activity_ignores_user_app_and_idle :
  forall now p p' db,
    UpdateActivityRequest.session_id p = UpdateActivityRequest.session_id p' ->
    UpdateActivityRequest.title p = UpdateActivityRequest.title p' ->
    UpdateActivityRequest.url p = UpdateActivityRequest.url p' ->
    fst (update_activity now p db) = fst (update_activity now p' db) /\
    db_session (snd (update_activity now p db))
    = db_session (snd (update_activity now p' db)).
Proof.
  intros now p p' db Hs Ht Hu.
  destruct (ObjectId_of_str (UpdateActivityRequest.session_id p))
    as [e | oid] eqn:Eo.
  - assert (Eo' := Eo). rewrite Hs in Eo'.
    rewrite (update_activity_invalid _ _ _ _ Eo).
    rewrite (update_activity_invalid _ _ _ _ Eo'). now split.
  - assert (Eo' := Eo). rewrite Hs in Eo'.
    destruct (List.find (has_id oid) (db_session db)) as [sdoc |] eqn:Ef.
    + rewrite (update_activity_found _ _ _ _ _ Eo Ef).
      rewrite (update_activity_found _ _ _ _ _ Eo' Ef).
      cbn [fst snd after_activity db_session]. rewrite Ht, Hu. now split.
    + rewrite (update_activity_missing _ _ _ _ Eo Ef).
      rewrite (update_activity_missing _ _ _ _ Eo' Ef). now split.
Qed.

Lemma activity_ignores_user_app_and_idle_witness :
  fst (update_activity 2000%Z sample_distraction sample_db)
  = fst (update_activity 2000%Z
           (UpdateActivityRequest.mk sample_sid "somebody else"
              (Some "browser") None (Some "Twitter feed") false) sample_db) /\
  db_session (snd (update_activity 2000%Z sample_distraction sample_db))
  = db_session
      (snd (update_activity 2000%Z
              (UpdateActivityRequest.mk sample_sid "somebody else"
                 (Some "browser") None (Some "Twitter feed") false) sample_db)).
Proof.
  apply (activity_ignores_user_app_and_idle 2000%Z sample_distraction
           (UpdateActivityRequest.mk sample_sid "somebody else"
              (Some "browser") None (Some "Twitter feed") false) sample_db);
    reflexivity.
Defined.

(** X12.  [update_activity] and [end_session] change no session document
    but the one the session_id denotes: a document whose identifier is not
    the one the string denotes is, after the call, at its place and
    unchanged. *)
Theorem other_sessions_are_untouched :
  forall now db i d,
    nth_error (db_session db) i = Some d ->
    (forall payload,
        ObjectId_of_str (UpdateActivityRequest.session_id payload)
        <> inr (_id d) ->
        nth_error (db_session (snd (update_activity now payload db))) i
        = Some d) /\
    (forall payload,
        ObjectId_of_str (EndSessionRequest.session_id payload) <> inr (_id d) ->
        nth_error (db_session (snd (end_session now payload db))) i = Some d).
Proof.
  intros now db i d Hd. split; intros payload Hne.
  - destruct (ObjectId_of_str (UpdateActivityRequest.session_id payload))
      as [e | oid] eqn:Eo.
    + now rewrite (update_activity_invalid _ _ _ _ Eo).
    + destruct (List.find (has_id oid) (db_session db)) as [sdoc |] eqn:Ef.
      * rewrite (update_activity_found _ _ _ _ _ Eo Ef).
        cbn [snd after_activity db_session].
        apply update_first_nth_other; [exact Hd |].
        apply (has_id_other _ _ _ Eo). now rewrite Eo.
      * now rewrite (update_activity_missing _ _ _ _ Eo Ef).
  - destruct (ObjectId_of_str (EndSessionRequest.session_id payload))
      as [e | oid] eqn:Eo.
    + now rewrite (end_session_invalid _ _ _ _ Eo).
    + destruct (List.find (has_id oid) (db_session db)) as [sdoc |] eqn:Ef.
      * rewrite (end_session_found _ _ _ _ _ Eo Ef). cbn [snd db_session].
        apply update_first_nth_other; [exact Hd |].
        apply (has_id_other _ _ _ Eo). now rewrite Eo.
      * now rewrite (end_session_missing _ _ _ _ Eo Ef).
Qed.

Lemma other_sessions_are_untouched_witness :
  nth_error
    (db_session
       (snd (update_activity 50%Z
               (UpdateActivityRequest.mk "000000000000000000000002" "u1" None
                  None (Some "notes") false) sample_summary_db))) 1
  = nth_error (db_session sample_summary_db) 1 /\
  nth_error
    (db_session
       (snd (end_session 50%Z
               (EndSessionRequest.mk "000000000000000000000002")
               sample_summary_db))) 1
  = nth_error (db_session sample_summary_db) 1.
Proof.
  split.
  - apply (proj1 (other_sessions_are_untouched 50%Z sample_summary_db 1
                    (mkSessionDoc (be_bytes 12 1)
                       (Session.mk "u2" "walk" 30 [] (Some "Cluely")
                          (Some 10%Z) None 30 0 5 "active") None)
                    eq_refl)).
    discriminate.
  - apply (proj2 (other_sessions_are_untouched 50%Z sample_summary_db 1
                    (mkSessionDoc (be_bytes 12 1)
                       (Session.mk "u2" "walk" 30 [] (Some "Cluely")
                          (Some 10%Z) None 30 0 5 "active") None)
                    eq_refl)).
    discriminate.
Defined.

(** ** Runs of requests *)

Section RunsMore.

(** What one request does to the session collection. *)
Lemma handle_sessions_shape (r : Request) (db : Store) :
  db_session (handle db r) = db_session db \/
  (exists now payload,
      Session.duration_ok (StartSessionRequest.duration_minutes payload) = true /\
      db_session (handle db r)
      = db_session db ++ [new_session_doc now payload db]) \/
  (exists oid decision now,
      db_session (handle db r)
      = update_first oid (accrual_update decision now) (db_session db)) \/
  (exists oid now,
      db_session (handle db r)
      = update_first oid (end_update now) (db_session db)).
Proof.
  destruct r as [user | now payload | now payload | now payload | user_id];
    cbn [handle].
  - now left.
  - destruct (Session.duration_ok (StartSessionRequest.duration_minutes payload))
      eqn:E.
    + right. left. exists now, payload. split; [exact E |].
      now rewrite (start_session_accepts _ _ _ E).
    + left. now rewrite (start_session_rejects _ _ _ E).
  - destruct (ObjectId_of_str (UpdateActivityRequest.session_id payload))
      as [e | oid] eqn:Eo.
    + left. now rewrite (update_activity_invalid _ _ _ _ Eo).
    + destruct (List.find (has_id oid) (db_session db)) as [sdoc |] eqn:Ef.
      * right. right. left.
        rewrite (update_activity_found _ _ _ _ _ Eo Ef).
        eexists. eexists. eexists. reflexivity.
      * left. now rewrite (update_activity_missing _ _ _ _ Eo Ef).
  - destruct (ObjectId_of_str (EndSessionRequest.session_id payload))
      as [e | oid] eqn:Eo.
    + left. now rewrite (end_session_invalid _ _ _ _ Eo).
    + destruct (List.find (has_id oid) (db_session db)) as [sdoc |] eqn:Ef.
      * right. right. right.
        rewrite (end_session_found _ _ _ _ _ Eo Ef).
        eexists. eexists. reflexivity.
      * left. now rewrite (end_session_missing _ _ _ _ Eo Ef).
  - now left.
Qed.

(** What one request does to the event collection. *)
Lemma handle_events_shape (r : Request) (db : Store) :
  db_activityevent (handle db r) = db_activityevent db \/
  exists oid e,
    well_logged e /\
    db_activityevent (handle db r) = db_activityevent db ++ [(oid, e)].
Proof.
  destruct r as [user | now payload | now payload | now payload | user_id];
    cbn [handle].
  - now left.
  - destruct (Session.duration_ok (StartSessionRequest.duration_minutes payload))
      eqn:E.
    + left. now rewrite (start_session_accepts _ _ _ E).
    + left. now rewrite (start_session_rejects _ _ _ E).
  - destruct (ObjectId_of_str (UpdateActivityRequest.session_id payload))
      as [e | oid] eqn:Eo.
    + left. now rewrite (update_activity_invalid _ _ _ _ Eo).
    + destruct (List.find (has_id oid) (db_session db)) as [sdoc |] eqn:Ef.
      * right. rewrite (update_activity_found _ _ _ _ _ Eo Ef).
        cbn [snd after_activity db_activityevent].
        eexists. eexists. split; [| reflexivity].
        unfold well_logged. cbn [ActivityEvent.device ActivityEvent.decision
                                   ActivityEvent.reason].
        split; [reflexivity |]. split; [| discriminate].
        destruct (classify_decision (Session.goal (fields sdoc))
                    (UpdateActivityRequest.title payload)
                    (UpdateActivityRequest.url payload)
                    (Session.categories (fields sdoc))) as [H | H];
          rewrite H; [now left | now right].
      * left. now rewrite (update_activity_missing _ _ _ _ Eo Ef).
  - destruct (ObjectId_of_str (EndSessionRequest.session_id payload))
      as [e | oid] eqn:Eo.
    + left. now rewrite (end_session_invalid _ _ _ _ Eo).
    + destruct (List.find (has_id oid) (db_session db)) as [sdoc |] eqn:Ef.
      * left. now rewrite (end_session_found _ _ _ _ _ Eo Ef).
      * left. now rewrite (end_session_missing _ _ _ _ Eo Ef).
  - now left.
Qed.

Lemma update_first_Forall (P : SessionDoc -> Prop) (oid : ObjectId)
    (u : Update) (docs : list SessionDoc) :
  (forall d, P d -> P (apply_update u d)) ->
  Forall P docs -> Forall P (update_first oid u docs).
Proof.
  intros Hu. induction 1 as [|d docs Hd Hdocs IH]; simpl; [constructor |].
  destruct (has_id oid d); constructor; auto.
Qed.

(** A relation between the states of a document which is reflexive,
    transitive and respected by the two updates holds along every run. *)
Section Related.

Variable R : SessionDoc -> SessionDoc -> Prop.
Hypothesis R_refl : forall d, R d d.
Hypothesis R_trans : forall d1 d2 d3, R d1 d2 -> R d2 d3 -> R d1 d3.
Hypothesis R_accrual :
  forall decision now d, R d (apply_update (accrual_update decision now) d).
Hypothesis R_end : forall now d, R d (apply_update (end_update now) d).

Lemma handle_related (r : Request) (db : Store) (i : nat) (d : SessionDoc) :
  nth_error (db_session db) i = Some d ->
  exists d', nth_error (db_session (handle db r)) i = Some d' /\ R d d'.
Proof.
  intros Hd.
  destruct (handle_sessions_shape r db)
    as [H | [[now [payload [_ H]]] | [[oid [dec [now H]]] | [oid [now H]]]]];
    rewrite H.
  - exists d. split; [exact Hd | apply R_refl].
  - exists d. split; [| apply R_refl].
    rewrite nth_error_app1; [exact Hd |].
    apply nth_error_Some. congruence.
  - destruct (update_first_nth oid (accrual_update dec now) _ _ _ Hd)
      as [H' | H']; rewrite H'; eexists; split; try reflexivity.
    + apply R_refl.
    + apply R_accrual.
  - destruct (update_first_nth oid (end_update now) _ _ _ Hd)
      as [H' | H']; rewrite H'; eexists; split; try reflexivity.
    + apply R_refl.
    + apply R_end.
Qed.

Lemma run_related (reqs : list Request) (db : Store) (i : nat) (d : SessionDoc) :
  nth_error (db_session db) i = Some d ->
  exists d', nth_error (db_session (run reqs db)) i = Some d' /\ R d d'.
Proof.
  revert db d; induction reqs as [|r reqs IH]; intros db d Hd; simpl.
  - exists d. split; [exact Hd | apply R_refl].
  - destruct (handle_related r db i d Hd) as [d1 [H1 E1]].
    destruct (IH _ _ H1) as [d2 [H2 E2]].
    exists d2. split; [exact H2 | exact (R_trans _ _ _ E1 E2)].
Qed.

End Related.

Lemma same_fixed_fields_refl (d : SessionDoc) : same_fixed_fields d d.
Proof. unfold same_fixed_fields. repeat split. Qed.

Lemma same_fixed_fields_trans (d1 d2 d3 : SessionDoc) :
  same_fixed_fields d1 d2 -> same_fixed_fields d2 d3 -> same_fixed_fields d1 d3.
Proof.
  unfold same_fixed_fields.
  intros [A1 [A2 [A3 [A4 [A5 [A6 A7]]]]]] [B1 [B2 [B3 [B4 [B5 [B6 B7]]]]]].
  repeat split; congruence.
Qed.

Lemma same_fixed_fields_accrual (decision : string) (now : datetime)
    (d : SessionDoc) :
  same_fixed_fields d (apply_update (accrual_update decision now) d).
Proof.
  unfold same_fixed_fields, apply_update, accrual_update.
  destruct (String.eqb decision "irrelevant"); simpl; repeat split.
Qed.

Lemma same_fixed_fields_end (now : datetime) (d : SessionDoc) :
  same_fixed_fields d (apply_update (end_update now) d).
Proof. unfold same_fixed_fields, apply_update. simpl. repeat split. Qed.

Lemma errors_nil_inv (s : Session.t) :
  Session.errors s = [] ->
  Session.duration_ok (Session.duration_minutes s) = true /\
  is_literal ["active"; "ended"] (Session.status s) = true.
Proof.
  unfold Session.errors.
  destruct (Session.duration_ok (Session.duration_minutes s));
    destruct (is_literal ["active"; "ended"] (Session.status s));
    simpl; intros H; try discriminate; now split.
Qed.

Lemma or_Cluely_nonempty (v : option string) : or_Cluely v <> "".
Proof.
  unfold or_Cluely. destruct v as [[|c s]|]; simpl; discriminate.
Qed.

Lemma well_kept_new (now : datetime) (payload : StartSessionRequest.t)
    (db : Store) :
  Session.duration_ok (StartSessionRequest.duration_minutes payload) = true ->
  well_kept (new_session_doc now payload db).
Proof.
  intros Hok. unfold well_kept, new_session_doc, Session.errors.
  cbn [fields Session.duration_minutes Session.status
         Session.total_focus_seconds Session.total_idle_seconds
         Session.distractions_blocked Session.ended_at Session.started_at
         Session.voice].
  rewrite Hok. repeat split; try reflexivity; try lia; try discriminate.
  - intros H. now elim H.
  - eexists. split; [reflexivity | apply or_Cluely_nonempty].
Qed.

Lemma accrual_update_fields (decision : string) (now : datetime)
    (d : SessionDoc) :
  fields (apply_update (accrual_update decision now) d)
  = Session.mk (Session.user_id (fields d)) (Session.goal (fields d))
      (Session.duration_minutes (fields d)) (Session.categories (fields d))
      (Session.voice (fields d)) (Session.started_at (fields d))
      (Session.ended_at (fields d))
      (if String.eqb decision "irrelevant"
       then Session.total_focus_seconds (fields d)
       else Session.total_focus_seconds (fields d) + 30)%Z
      (Session.total_idle_seconds (fields d))
      (if String.eqb decision "irrelevant"
       then Session.distractions_blocked (fields d) + 1
       else Session.distractions_blocked (fields d))%Z
      (Session.status (fields d)).
Proof.
  unfold apply_update, accrual_update.
  now destruct (String.eqb decision "irrelevant").
Qed.

Lemma end_update_fields (now : datetime) (d : SessionDoc) :
  fields (apply_update (end_update now) d)
  = Session.mk (Session.user_id (fields d)) (Session.goal (fields d))
      (Session.duration_minutes (fields d)) (Session.categories (fields d))
      (Session.voice (fields d)) (Session.started_at (fields d))
      (Some now)
      (Session.total_focus_seconds (fields d))
      (Session.total_idle_seconds (fields d))
      (Session.distractions_blocked (fields d))
      "ended".
Proof. reflexivity. Qed.

Lemma well_kept_accrual (decision : string) (now : datetime) (d : SessionDoc) :
  well_kept d -> well_kept (apply_update (accrual_update decision now) d).
Proof.
  unfold well_kept. rewrite accrual_update_fields.
  intros [He [Hf [Hm [Hi [Hd [Hs [Hst Hv]]]]]]].
  unfold Session.errors in *.
  cbn [Session.duration_minutes Session.status Session.total_focus_seconds
         Session.total_idle_seconds Session.distractions_blocked
         Session.ended_at Session.started_at Session.voice].
  split; [exact He |].
  destruct (String.eqb decision "irrelevant").
  - split; [exact Hf |]. split; [exact Hm |]. split; [exact Hi |].
    split; [lia |]. split; [exact Hs |]. split; [exact Hst | exact Hv].
  - split; [lia |].
    split.
    { replace (Session.total_focus_seconds (fields d) + 30)%Z
        with (Session.total_focus_seconds (fields d) + 1 * 30)%Z by lia.
      now rewrite Z_mod_plus_full. }
    split; [exact Hi |]. split; [exact Hd |].
    split; [exact Hs |]. split; [exact Hst | exact Hv].
Qed.

Lemma well_kept_end (now : datetime) (d : SessionDoc) :
  well_kept d -> well_kept (apply_update (end_update now) d).
Proof.
  unfold well_kept. rewrite end_update_fields.
  intros [He [Hf [Hm [Hi [Hd [Hs [Hst Hv]]]]]]].
  destruct (errors_nil_inv _ He) as [Hdur _].
  unfold Session.errors.
  cbn [Session.duration_minutes Session.status Session.total_focus_seconds
         Session.total_idle_seconds Session.distractions_blocked
         Session.ended_at Session.started_at Session.voice].
  rewrite Hdur.
  split; [reflexivity |]. split; [exact Hf |]. split; [exact Hm |].
  split; [exact Hi |]. split; [exact Hd |].
  split; [split; [discriminate | reflexivity] |].
  split; [exact Hst | exact Hv].
Qed.

Lemma handle_well_kept (r : Request) (db : Store) :
  Forall well_kept (db_session db) ->
  Forall well_kept (db_session (handle db r)).
Proof.
  intros Hall.
  destruct (handle_sessions_shape r db)
    as [H | [[now [payload [Hok H]]] | [[oid [dec [now H]]] | [oid [now H]]]]];
    rewrite H.
  - exact Hall.
  - apply Forall_app. split; [exact Hall |].
    constructor; [now apply well_kept_new | constructor].
  - apply update_first_Forall; [apply well_kept_accrual | exact Hall].
  - apply update_first_Forall; [apply well_kept_end | exact Hall].
Qed.

End RunsMore.

(** X13.  The documents of the session collection stay as the handlers
    make them.  If every session document passes the checks of the model
    (duration within 1..480, status "active" or "ended"), has counters
    total_focus_seconds a non-negative multiple of 30, total_idle_seconds
    0 and distractions_blocked non-negative, has ended_at set exactly when
    its status is "ended", and has a start time and a non-empty voice,
    then the same holds after any sequence of requests; so it holds in
    every store reached from the empty one. *)
Theorem session_documents_stay_well_kept :
  (forall reqs db,
      Forall well_kept (db_session db) ->
      Forall well_kept (db_session (run reqs db))) /\
  (forall reqs, Forall well_kept (db_session (run reqs empty_store))).
Proof.
  assert (H : forall reqs db,
             Forall well_kept (db_session db) ->
             Forall well_kept (db_session (run reqs db))).
  { induction reqs as [|r reqs IH]; intros db Hall; simpl; [exact Hall |].
    apply IH. now apply handle_well_kept. }
  split; [exact H |].
  intros reqs. apply H. constructor.
Qed.

Lemma session_documents_stay_well_kept_witness :
  Forall well_kept
    (db_session
       (run [Activity 2000%Z sample_distraction; Activity 2030%Z sample_work;
             EndSession 3000%Z sample_end] sample_db)).
Proof.
  apply (proj1 session_documents_stay_well_kept).
  constructor; [| constructor].
  apply (well_kept_new 1000%Z sample_start empty_store). reflexivity.
Defined.

(** X14.  No request changes the identifier, the owner, the goal, the
    planned duration, the categories, the voice or the start time of a
    session document: after any sequence of requests a document is at its
    place with these fields as they were. *)
Theorem session_fixed_fields_never_change :
  forall (reqs : list Request) (db : Store) (i : nat) (d : SessionDoc),
    nth_error (db_session db) i = Some d ->
    exists d',
      nth_error (db_session (run reqs db)) i = Some d' /\
      _id d' = _id d /\
      Session.user_id (fields d') = Session.user_id (fields d) /\
      Session.goal (fields d') = Session.goal (fields d) /\
      Session.duration_minutes (fields d')
      = Session.duration_minutes (fields d) /\
      Session.categories (fields d') = Session.categories (fields d) /\
      Session.voice (fields d') = Session.voice (fields d) /\
      Session.started_at (fields d') = Session.started_at (fields d).
Proof.
  intros reqs db i d Hd.
  exact (run_related same_fixed_fields same_fixed_fields_refl
           same_fixed_fields_trans same_fixed_fields_accrual
           same_fixed_fields_end reqs db i d Hd).
Qed.

Lemma session_fixed_fields_never_change_witness :
  exists d',
    nth_error
      (db_session
         (run [Activity 2000%Z sample_distraction;
               EndSession 3000%Z sample_end;
               StartSession 4000%Z sample_start] sample_db)) 0 = Some d' /\
    Session.goal (fields d') = "finish report" /\
    Session.duration_minutes (fields d') = 25%Z /\
    Session.started_at (fields d') = Some 1000%Z.
Proof.
  destruct (session_fixed_fields_never_change
              [Activity 2000%Z sample_distraction;
               EndSession 3000%Z sample_end;
               StartSession 4000%Z sample_start] sample_db 0
              (new_session_doc 1000%Z sample_start empty_store) eq_refl)
    as [d' [H [_ [_ [Hg [Hd [_ [_ Hs]]]]]]]].
  exists d'. repeat split; assumption.
Defined.

(** X15.  The event collection is an append-only log: after any sequence
    of requests the events that were there are still there, unchanged and
    in the same order, followed by the new ones, at most one per request;
    each new event has the device "web", a decision that is "relevant" or
    "irrelevant", and a reason. *)
Theorem event_log_is_append_only :
  forall (reqs : list Request) (db : Store),
    exists more,
      db_activityevent (run reqs db) = db_activityevent db ++ more /\
      (List.length more <= List.length reqs)%nat /\
      Forall (fun oe => well_logged (snd oe)) more.
Proof.
  induction reqs as [|r reqs IH]; intros db; simpl.
  - exists []. rewrite app_nil_r.
    split; [reflexivity | split; [simpl; lia | constructor]].
  - destruct (IH (handle db r)) as [more [Hrun [Hlen Hok]]].
    destruct (handle_events_shape r db) as [H | [oid [e [He H]]]].
    + exists more. rewrite Hrun, H.
      split; [reflexivity | split; [lia | exact Hok]].
    + exists ((oid, e) :: more). rewrite Hrun, H, <- app_assoc.
      split; [reflexivity |].
      split; [simpl; lia | constructor; assumption].
Qed.

(** ** Sessions from start to summary *)

Section SummaryMore.

Lemma session_summary_eq (user_id : string) (db : Store) :
  session_summary user_id db
  = (inr (Summary.mk
            (len (firstn 50 (filter (owned_by user_id) (db_session db))))
            (sum (map (fun s => Session.total_focus_seconds (fields s))
                    (firstn 50 (filter (owned_by user_id) (db_session db)))))
            (sum (map (fun s => Session.total_idle_seconds (fields s))
                    (firstn 50 (filter (owned_by user_id) (db_session db)))))
            (sum (map (fun s => Session.distractions_blocked (fields s))
                    (firstn 50 (filter (owned_by user_id) (db_session db)))))
            (Z.min (len (firstn 50 (filter (owned_by user_id) (db_session db))))
               7)),
     db).
Proof. reflexivity. Qed.

Lemma fold_add_shift (l : list Z) (a : Z) :
  fold_left Z.add l a = (a + fold_left Z.add l 0)%Z.
Proof.
  revert a; induction l as [|x l IH]; intros a; simpl; [lia |].
  rewrite (IH (a + x)%Z), (IH x). lia.
Qed.

Lemma sum_cons (x : Z) (l : list Z) : sum (x :: l) = (x + sum l)%Z.
Proof. unfold sum. simpl. apply fold_add_shift. Qed.

(** Updating a document that the filter drops does not show in the
    filtered list. *)
Lemma filter_update_first_other (user_id : string) (oid : ObjectId)
    (u : Update) (docs : list SessionDoc) (sdoc : SessionDoc) :
  List.find (has_id oid) docs = Some sdoc ->
  owned_by user_id sdoc = false ->
  owned_by user_id (apply_update u sdoc) = false ->
  filter (owned_by user_id) (update_first oid u docs)
  = filter (owned_by user_id) docs.
Proof.
  intros Hfind Hown Hown'.
  induction docs as [|d docs IH]; simpl in *; [discriminate |].
  destruct (has_id oid d).
  - inversion Hfind; subst d. simpl. now rewrite Hown, Hown'.
  - simpl. now rewrite (IH Hfind).
Qed.

(** Updating a document that the filter keeps changes every sum over the
    filtered list by what the update changes in that document. *)
Lemma filter_update_first_own (user_id : string) (oid : ObjectId)
    (u : Update) (docs : list SessionDoc) (sdoc : SessionDoc)
    (f : SessionDoc -> Z) :
  List.find (has_id oid) docs = Some sdoc ->
  owned_by user_id sdoc = true ->
  owned_by user_id (apply_update u sdoc) = true ->
  List.length (filter (owned_by user_id) (update_first oid u docs))
  = List.length (filter (owned_by user_id) docs) /\
  sum (map f (filter (owned_by user_id) (update_first oid u docs)))
  = (sum (map f (filter (owned_by user_id) docs))
     + f (apply_update u sdoc) - f sdoc)%Z.
Proof.
  intros Hfind Hown Hown'.
  induction docs as [|d docs IH]; simpl in *; [discriminate |].
  destruct (has_id oid d).
  - inversion Hfind; subst d. simpl. rewrite Hown, Hown'. simpl.
    rewrite !sum_cons. split; [reflexivity | lia].
  - simpl. destruct (IH Hfind) as [Hlen Hsum].
    destruct (owned_by user_id d); simpl.
    + rewrite !sum_cons, Hsum, Hlen. split; [reflexivity | lia].
    + now split.
Qed.

Lemma owned_by_accrual (user_id decision : string) (now : datetime)
    (d : SessionDoc) :
  owned_by user_id (apply_update (accrual_update decision now) d)
  = owned_by user_id d.
Proof. unfold owned_by. now rewrite accrual_update_fields. Qed.

Lemma owned_by_end (user_id : string) (now : datetime) (d : SessionDoc) :
  owned_by user_id (apply_update (end_update now) d) = owned_by user_id d.
Proof. reflexivity. Qed.

Lemma filter_nothing {A} (f : A -> bool) (l : list A) :
  (forall x, In x l -> f x = false) -> filter f l = [].
Proof.
  induction l as [|a l IH]; intros H; simpl; [reflexivity |].
  rewrite (H a (or_introl eq_refl)). apply IH.
  intros x Hin. apply H. now right.
Qed.

Lemma find_fresh_appended (db : Store) (doc : SessionDoc) :
  List.find (has_id (fresh_oid db)) (db_session db) = None ->
  _id doc = fresh_oid db ->
  List.find (has_id (fresh_oid db)) (db_session db ++ [doc]) = Some doc.
Proof.
  intros Hfresh Hid. rewrite find_app_first, Hfresh. cbn [List.find].
  unfold has_id. now rewrite Hid, String.eqb_refl.
Qed.

End SummaryMore.

(** X16.  Start, then use.  When the identifier given to the new document
    is not already in the collection, the session_id [start_session]
    returns is one the other two handlers accept: an activity event for it
    is classified against the goal and the categories of the start payload,
    and an end request for it returns "ended". *)
Theorem started_session_can_be_used :
  forall now payload db,
    (1 <= StartSessionRequest.duration_minutes payload <= 480)%Z ->
    List.find (has_id (fresh_oid db)) (db_session db) = None ->
    exists sid,
      fst (start_session now payload db) = inr (sid, "active") /\
      (forall now' activity,
          UpdateActivityRequest.session_id activity = sid ->
          fst (update_activity now' activity (snd (start_session now payload db)))
          = inr (classify_relevance (StartSessionRequest.goal payload)
                   (UpdateActivityRequest.title activity)
                   (UpdateActivityRequest.url activity)
                   (StartSessionRequest.categories payload))) /\
      (forall now',
          fst (end_session now' (EndSessionRequest.mk sid)
                 (snd (start_session now payload db))) = inr "ended").
Proof.
  intros now payload db Hr Hfresh.
  apply duration_ok_iff in Hr.
  rewrite (start_session_accepts _ _ _ Hr). cbn [fst snd].
  exists (ObjectId_str (fresh_oid db)). split; [reflexivity |].
  set (db1 := mkStore (db_user db)
                (db_session db ++ [new_session_doc now payload db])
                (db_activityevent db) (N.succ (next_oid db))).
  assert (Ef : List.find (has_id (fresh_oid db)) (db_session db1)
               = Some (new_session_doc now payload db))
    by (apply find_fresh_appended; [exact Hfresh | reflexivity]).
  split.
  - intros now' activity Hsid.
    assert (Eo : ObjectId_of_str (UpdateActivityRequest.session_id activity)
                 = inr (fresh_oid db))
      by (rewrite Hsid; apply fresh_oid_roundtrip).
    change (fst (update_activity now' activity db1)
            = inr (classify_relevance (StartSessionRequest.goal payload)
                     (UpdateActivityRequest.title activity)
                     (UpdateActivityRequest.url activity)
                     (StartSessionRequest.categories payload))).
    now rewrite (update_activity_found _ _ _ _ _ Eo Ef).
  - intros now'.
    change (fst (end_session now' (EndSessionRequest.mk
                                     (ObjectId_str (fresh_oid db))) db1)
            = inr "ended").
    now rewrite (end_session_found now' (EndSessionRequest.mk
                   (ObjectId_str (fresh_oid db))) db1 (fresh_oid db) _
                   (fresh_oid_roundtrip db) Ef).
Qed.

Lemma started_session_can_be_used_witness :
  exists sid,
    fst (start_session 1000%Z sample_start empty_store) = inr (sid, "active") /\
    (forall now' activity,
        UpdateActivityRequest.session_id activity = sid ->
        fst (update_activity now' activity
               (snd (start_session 1000%Z sample_start empty_store)))
        = inr (classify_relevance "finish report"
                 (UpdateActivityRequest.title activity)
                 (UpdateActivityRequest.url activity) ["social"])) /\
    (forall now',
        fst (end_session now' (EndSessionRequest.mk sid)
               (snd (start_session 1000%Z sample_start empty_store)))
        = inr "ended").
Proof.
  apply (started_session_can_be_used 1000%Z sample_start empty_store).
  - simpl. lia.
  - reflexivity.
Defined.

(** X17.  The summary never fails and is bounded: sessions is between 0
    and 50, streak_days between 0 and 7 and never more than sessions.  A
    user_id that owns no session document is not an error: its summary is
    all zeros. *)
Theorem summary_is_bounded :
  forall user_id db,
    exists s,
      session_summary user_id db = (inr s, db) /\
      (0 <= Summary.sessions s <= 50)%Z /\
      (0 <= Summary.streak_days s <= 7)%Z /\
      (Summary.streak_days s <= Summary.sessions s)%Z /\
      ((forall d, In d (db_session db) ->
                  Session.user_id (fields d) <> user_id) ->
       s = Summary.mk 0 0 0 0 0).
Proof.
  intros user_id db. rewrite session_summary_eq. eexists.
  split; [reflexivity |].
  cbn [Summary.sessions Summary.streak_days].
  pose proof (firstn_le_length 50
                (filter (owned_by user_id) (db_session db))) as Hlen.
  unfold len.
  split; [lia |]. split; [lia |]. split; [lia |].
  intros Hnone.
  rewrite (filter_nothing (owned_by user_id) (db_session db));
    [reflexivity |].
  intros d Hin. apply String.eqb_neq. now apply Hnone.
Qed.

Lemma summary_is_bounded_witness :
  session_summary "nobody" sample_summary_db
  = (inr (Summary.mk 0 0 0 0 0), sample_summary_db).
Proof.
  destruct (summary_is_bounded "nobody" sample_summary_db)
    as [s [Hs [_ [_ [_ Hzero]]]]].
  rewrite Hs, Hzero; [reflexivity |].
  intros d [<- | [<- | [<- | []]]]; discriminate.
Defined.

(** X18.  The summary of a user does not see what happens to the sessions
    of other users: an activity event or an end request on a session owned
    by somebody else leaves the summary as it was. *)
Theorem summary_ignores_other_users_sessions :
  forall user_id now db sdoc,
    Session.user_id (fields sdoc) <> user_id ->
    (forall payload,
        session_for (UpdateActivityRequest.session_id payload) db = Some sdoc ->
        fst (session_summary user_id (snd (update_activity now payload db)))
        = fst (session_summary user_id db)) /\
    (forall payload,
        session_for (EndSessionRequest.session_id payload) db = Some sdoc ->
        fst (session_summary user_id (snd (end_session now payload db)))
        = fst (session_summary user_id db)).
Proof.
  intros user_id now db sdoc Hother.
  assert (Hown : owned_by user_id sdoc = false)
    by (now apply String.eqb_neq).
  split; intros payload Hs;
    destruct (session_for_inv _ _ _ Hs) as [oid [Eo Ef]];
    rewrite !session_summary_eq; cbn [fst].
  - rewrite (update_activity_found _ _ _ _ _ Eo Ef).
    cbn [snd after_activity db_session].
    rewrite (filter_update_first_other user_id oid _ _ sdoc Ef Hown);
      [reflexivity |].
    now rewrite owned_by_accrual.
  - rewrite (end_session_found _ _ _ _ _ Eo Ef). cbn [snd db_session].
    rewrite (filter_update_first_other user_id oid _ _ sdoc Ef Hown);
      [reflexivity |].
    now rewrite owned_by_end.
Qed.

Lemma summary_ignores_other_users_sessions_witness :
  fst (session_summary "u1"
         (snd (update_activity 50%Z
                 (UpdateActivityRequest.mk "000000000000000000000001" "u2"
                    None None (Some "map") false) sample_summary_db)))
  = fst (session_summary "u1" sample_summary_db).
Proof.
  apply (proj1 (summary_ignores_other_users_sessions "u1" 50%Z
                  sample_summary_db
                  (mkSessionDoc (be_bytes 12 1)
                     (Session.mk "u2" "walk" 30 [] (Some "Cluely")
                        (Some 10%Z) None 30 0 5 "active") None)
                  ltac:(discriminate))).
  reflexivity.
Defined.

(** X19.  The summary follows the accrual.  For a user with at most 50
    sessions, an activity event on one of them moves the totals of the
    summary by exactly what it adds to the session: an "irrelevant" event
    adds 1 to distractions_blocked, a "relevant" one adds 30 to
    total_focus_seconds; sessions, total_idle_seconds and streak_days are
    as before. *)
Theorem summary_follows_the_accrual :
  forall now payload db sdoc s s',
    session_for (UpdateActivityRequest.session_id payload) db = Some sdoc ->
    (List.length (filter (owned_by (Session.user_id (fields sdoc)))
                    (db_session db)) <= 50)%nat ->
    fst (session_summary (Session.user_id (fields sdoc)) db) = inr s ->
    fst (session_summary (Session.user_id (fields sdoc))
           (snd (update_activity now payload db))) = inr s' ->
    Summary.sessions s' = Summary.sessions s /\
    Summary.total_idle_seconds s' = Summary.total_idle_seconds s /\
    Summary.streak_days s' = Summary.streak_days s /\
    (fst (classify_relevance (Session.goal (fields sdoc))
            (UpdateActivityRequest.title payload)
            (UpdateActivityRequest.url payload)
            (Session.categories (fields sdoc))) = "irrelevant" ->
     Summary.distractions_blocked s'
     = (Summary.distractions_blocked s + 1)%Z /\
     Summary.total_focus_seconds s' = Summary.total_focus_seconds s) /\
    (fst (classify_relevance (Session.goal (fields sdoc))
            (UpdateActivityRequest.title payload)
            (UpdateActivityRequest.url payload)
            (Session.categories (fields sdoc))) = "relevant" ->
     Summary.total_focus_seconds s'
     = (Summary.total_focus_seconds s + 30)%Z /\
     Summary.distractions_blocked s' = Summary.distractions_blocked s).
Proof.
  intros now payload db sdoc s s' Hs Hlen Hsum Hsum'.
  destruct (session_for_inv _ _ _ Hs) as [oid [Eo Ef]].
  set (user := Session.user_id (fields sdoc)) in *.
  set (dec := fst (classify_relevance (Session.goal (fields sdoc))
                     (UpdateActivityRequest.title payload)
                     (UpdateActivityRequest.url payload)
                     (Session.categories (fields sdoc)))).
  assert (Hown : owned_by user sdoc = true) by apply String.eqb_refl.
  assert (Hown' : owned_by user (apply_update (accrual_update dec now) sdoc)
                  = true) by (now rewrite owned_by_accrual).
  rewrite (update_activity_found _ _ _ _ _ Eo Ef) in Hsum'.
  rewrite session_summary_eq in Hsum, Hsum'.
  cbn [fst snd after_activity db_session] in Hsum, Hsum'. fold dec in Hsum'.
  pose proof (fun f => filter_update_first_own user oid
                         (accrual_update dec now) (db_session db) sdoc f
                         Ef Hown Hown') as Hupd.
  destruct (Hupd (fun _ => 0%Z)) as [Hl _].
  rewrite !firstn_all2 in Hsum, Hsum' by lia.
  inversion Hsum as [Es]. inversion Hsum' as [Es']. clear Hsum Hsum'.
  cbn [Summary.sessions Summary.total_idle_seconds Summary.streak_days
         Summary.distractions_blocked Summary.total_focus_seconds].
  unfold len. rewrite Hl.
  destruct (Hupd (fun d => Session.total_focus_seconds (fields d))) as [_ Hf].
  destruct (Hupd (fun d => Session.total_idle_seconds (fields d))) as [_ Hi].
  destruct (Hupd (fun d => Session.distractions_blocked (fields d))) as [_ Hd].
  rewrite Hf, Hi, Hd.
  destruct (accrual_fields dec now sdoc) as [Hirr [Hrel [Hidle _]]].
  split; [reflexivity |]. split; [lia |]. split; [reflexivity |].
  split.
  - intros Hdec. destruct (Hirr Hdec) as [A B]. lia.
  - intros Hdec.
    assert (Hne : dec <> "irrelevant") by (rewrite Hdec; discriminate).
    destruct (Hrel Hne) as [A B]. lia.
Qed.

Lemma summary_follows_the_accrual_witness :
  exists s s',
    fst (session_summary "u1" sample_db) = inr s /\
    fst (session_summary "u1"
           (snd (update_activity 2000%Z sample_work sample_db))) = inr s' /\
    Summary.total_focus_seconds s' = (Summary.total_focus_seconds s + 30)%Z /\
    Summary.distractions_blocked s' = Summary.distractions_blocked s.
Proof.
  eexists. eexists. split; [reflexivity |]. split; [reflexivity |].
  refine (proj2 (proj2 (proj2 (proj2
            (summary_follows_the_accrual 2000%Z sample_work sample_db
               (new_session_doc 1000%Z sample_start empty_store) _ _
               eq_refl _ eq_refl eq_refl)))) eq_refl).
  simpl. lia.
Defined.

(** ** The diagnostic endpoint *)

Section DiagnosticMore.

(** The response, case by case. *)
Lemma test_database_none (getenv : string -> option string) :
  Diagnostic.database (test_database None getenv)
  = Unicode.warning_sign ++ Unicode.of_string "  Available but not initialized" /\
  Diagnostic.connection_status (test_database None getenv)
  = Unicode.of_string "Not Connected" /\
  Diagnostic.collections (test_database None getenv) = [].
Proof. repeat split. Qed.

Lemma test_database_name_raises (d : Database.t) (e : Unicode.str)
    (getenv : string -> option string) :
  Database.name d = Database.Raises e ->
  Diagnostic.database (test_database (Some d) getenv)
  = Unicode.cross_mark ++ Unicode.of_string " Error: " ++ firstn 50 e /\
  Diagnostic.connection_status (test_database (Some d) getenv)
  = Unicode.of_string "Not Connected" /\
  Diagnostic.collections (test_database (Some d) getenv) = [].
Proof.
  intros H. unfold test_database, rbind, try_except, name_or.
  rewrite H. repeat split.
Qed.

Lemma test_database_listing_raises (d : Database.t) (e : Unicode.str)
    (getenv : string -> option string) :
  (forall e', Database.name d <> Database.Raises e') ->
  Database.list_collection_names d = inl e ->
  Diagnostic.database (test_database (Some d) getenv)
  = Unicode.warning_sign ++ Unicode.of_string "  Connected but Error: "
      ++ firstn 50 e /\
  Diagnostic.connection_status (test_database (Some d) getenv)
  = Unicode.of_string "Connected" /\
  Diagnostic.collections (test_database (Some d) getenv) = [].
Proof.
  intros Hn Hl. unfold test_database, rbind, try_except, name_or.
  rewrite Hl. destruct (Database.name d) as [| e' | v].
  - repeat split.
  - now elim (Hn e').
  - repeat split.
Qed.

Lemma test_database_working (d : Database.t) (names : list Unicode.str)
    (getenv : string -> option string) :
  (forall e', Database.name d <> Database.Raises e') ->
  Database.list_collection_names d = inr names ->
  Diagnostic.database (test_database (Some d) getenv)
  = Unicode.check_mark ++ Unicode.of_string " Connected & Working" /\
  Diagnostic.connection_status (test_database (Some d) getenv)
  = Unicode.of_string "Connected" /\
  Diagnostic.collections (test_database (Some d) getenv) = firstn 10 names.
Proof.
  intros Hn Hl. unfold test_database, rbind, try_except, name_or.
  rewrite Hl. destruct (Database.name d) as [| e' | v].
  - repeat split.
  - now elim (Hn e').
  - repeat split.
Qed.

(** The four cases are all there are. *)
Lemma test_database_cases (db : option Database.t) :
  db = None \/
  (exists d e, db = Some d /\ Database.name d = Database.Raises e) \/
  (exists d e, db = Some d /\
               (forall e', Database.name d <> Database.Raises e') /\
               Database.list_collection_names d = inl e) \/
  (exists d names, db = Some d /\
                   (forall e', Database.name d <> Database.Raises e') /\
                   Database.list_collection_names d = inr names).
Proof.
  destruct db as [d |]; [| now left]. right.
  destruct (Database.name d) as [| e | v] eqn:En.
  - right. destruct (Database.list_collection_names d) as [e | names] eqn:El.
    + left. exists d, e. rewrite En. repeat split; [discriminate | exact El].
    + right. exists d, names. rewrite En.
      repeat split; [discriminate | exact El].
  - left. now exists d, e.
  - right. destruct (Database.list_collection_names d) as [e | names] eqn:El.
    + left. exists d, e. rewrite En. repeat split; [discriminate | exact El].
    + right. exists d, names. rewrite En.
      repeat split; [discriminate | exact El].
Qed.

End DiagnosticMore.

(** X20.  The two fields database_url and database_name of the diagnostic
    say only whether the environment variables DATABASE_URL and
    DATABASE_NAME have a non-empty value: they never stay None, they do
    not depend on the database handle, and they never carry the name of
    the database or the text "Configured" written earlier in the
    function; a variable set to the empty string counts as not set. *)
Theorem diagnostic_reports_the_environment :
  forall db getenv,
    Diagnostic.database_url (test_database db getenv)
    = Some (if truthy (getenv "DATABASE_URL")
            then Unicode.check_mark ++ Unicode.of_string " Set"
            else Unicode.cross_mark ++ Unicode.of_string " Not Set") /\
    Diagnostic.database_name (test_database db getenv)
    = Some (if truthy (getenv "DATABASE_NAME")
            then Unicode.check_mark ++ Unicode.of_string " Set"
            else Unicode.cross_mark ++ Unicode.of_string " Not Set") /\
    (getenv "DATABASE_URL" = Some "" ->
     Diagnostic.database_url (test_database db getenv)
     = Some (Unicode.cross_mark ++ Unicode.of_string " Not Set")).
Proof.
  intros db getenv.
  assert (H : Diagnostic.database_url (test_database db getenv)
              = Some (if truthy (getenv "DATABASE_URL")
                      then Unicode.check_mark ++ Unicode.of_string " Set"
                      else Unicode.cross_mark ++ Unicode.of_string " Not Set") /\
              Diagnostic.database_name (test_database db getenv)
              = Some (if truthy (getenv "DATABASE_NAME")
                      then Unicode.check_mark ++ Unicode.of_string " Set"
                      else Unicode.cross_mark ++ Unicode.of_string " Not Set")).
  { unfold test_database, rbind, try_except, name_or.
    destruct db as [[nm ls] |]; [| now split].
    cbn [Database.name Database.list_collection_names].
    destruct nm as [| e | v]; destruct ls as [e' | names]; now split. }
  destruct H as [Hu Hn]. split; [exact Hu | split; [exact Hn |]].
  intros Hempty. rewrite Hu, Hempty. reflexivity.
Qed.

Lemma diagnostic_reports_the_environment_witness :
  Diagnostic.database_url
    (test_database
       (Some (Database.mk (Database.Has (Unicode.of_string "focus"))
                (inr [Unicode.of_string "session"])))
       (fun k => if String.eqb k "DATABASE_URL" then Some "" else None))
  = Some (Unicode.cross_mark ++ Unicode.of_string " Not Set").
Proof.
  apply (proj2 (proj2 (diagnostic_reports_the_environment
                         (Some (Database.mk
                                  (Database.Has (Unicode.of_string "focus"))
                                  (inr [Unicode.of_string "session"])))
                         (fun k => if String.eqb k "DATABASE_URL"
                                   then Some "" else None)))).
  reflexivity.
Defined.

(** X21.  The diagnostic lists at most ten collections: when the handle
    is there, reading its name does not raise and the listing succeeds,
    they are the first ten names of the listing, in its order; in every
    other case the list is empty.  The field backend is always the same
    text. *)
Theorem diagnostic_lists_at_most_ten_collections :
  forall db getenv,
    Diagnostic.backend (test_database db getenv)
    = Unicode.check_mark ++ Unicode.of_string " Running" /\
    (List.length (Diagnostic.collections (test_database db getenv)) <= 10)%nat /\
    (forall d names,
        db = Some d ->
        (forall e, Database.name d <> Database.Raises e) ->
        Database.list_collection_names d = inr names ->
        Diagnostic.collections (test_database db getenv) = firstn 10 names) /\
    (Diagnostic.collections (test_database db getenv) <> [] ->
     exists d names,
       db = Some d /\ Database.list_collection_names d = inr names /\
       (forall e, Database.name d <> Database.Raises e)).
Proof.
  intros db getenv.
  split.
  { unfold test_database, rbind, try_except, name_or.
    destruct db as [[nm ls] |]; [| reflexivity].
    cbn [Database.name Database.list_collection_names].
    destruct nm as [| e | v]; destruct ls as [e' | names]; reflexivity. }
  destruct (test_database_cases db)
    as [-> | [[d [e [-> Hn]]] | [[d [e [-> [Hn Hl]]]] | [d [names [-> [Hn Hl]]]]]]].
  - destruct (test_database_none getenv) as [_ [_ Hc]]. rewrite Hc.
    split; [simpl; lia |]. split; [intros d names H; discriminate |].
    intros H. now elim H.
  - destruct (test_database_name_raises d e getenv Hn) as [_ [_ Hc]].
    rewrite Hc. split; [simpl; lia |]. split.
    + intros d' names H Hn'. inversion H; subst d'. now elim (Hn' e).
    + intros H. now elim H.
  - destruct (test_database_listing_raises d e getenv Hn Hl) as [_ [_ Hc]].
    rewrite Hc. split; [simpl; lia |]. split.
    + intros d' names H _ Hl'. inversion H; subst d'. congruence.
    + intros H. now elim H.
  - destruct (test_database_working d names getenv Hn Hl) as [_ [_ Hc]].
    rewrite Hc. split; [apply firstn_le_length |]. split.
    + intros d' names' H _ Hl'. inversion H; subst d'. congruence.
    + intros _. exists d, names. repeat split; assumption.
Qed.

Lemma diagnostic_lists_at_most_ten_collections_witness :
  Diagnostic.collections
    (test_database
       (Some (Database.mk Database.Missing
                (inr (map Unicode.of_string
                        ["a"; "b"; "c"; "d"; "e"; "f"; "g"; "h"; "i"; "j";
                         "k"; "l"]))))
       (fun _ => None))
  = map Unicode.of_string ["a"; "b"; "c"; "d"; "e"; "f"; "g"; "h"; "i"; "j"].
Proof.
  apply (proj1 (proj2 (proj2 (diagnostic_lists_at_most_ten_collections
           (Some (Database.mk Database.Missing
                    (inr (map Unicode.of_string
                            ["a"; "b"; "c"; "d"; "e"; "f"; "g"; "h"; "i"; "j";
                             "k"; "l"]))))
           (fun _ => None))))
           (Database.mk Database.Missing
              (inr (map Unicode.of_string
                      ["a"; "b"; "c"; "d"; "e"; "f"; "g"; "h"; "i"; "j";
                       "k"; "l"])))
           (map Unicode.of_string
              ["a"; "b"; "c"; "d"; "e"; "f"; "g"; "h"; "i"; "j"; "k"; "l"])).
  - reflexivity.
  - intros e. discriminate.
  - reflexivity.
Defined.

(** X22.  The field database of the diagnostic is always overwritten: it
    is never the initial text ending in "Not Available".  It has at most
    75 characters whatever the exception says, because the text of an
    exception is cut to 50 characters.  The field connection_status is
    "Connected" exactly when the handle is there and reading its name does
    not raise, also when the listing of the collections then fails. *)
Theorem diagnostic_database_message :
  forall db getenv,
    Diagnostic.database (test_database db getenv)
    <> Unicode.cross_mark ++ Unicode.of_string " Not Available" /\
    (List.length (Diagnostic.database (test_database db getenv)) <= 75)%nat /\
    (Diagnostic.connection_status (test_database db getenv)
     = Unicode.of_string "Connected" <->
     exists d, db = Some d /\ forall e, Database.name d <> Database.Raises e) /\
    (forall d e,
        db = Some d ->
        (forall e', Database.name d <> Database.Raises e') ->
        Database.list_collection_names d = inl e ->
        Diagnostic.database (test_database db getenv)
        = Unicode.warning_sign ++ Unicode.of_string "  Connected but Error: "
            ++ firstn 50 e).
Proof.
  intros db getenv.
  destruct (test_database_cases db)
    as [-> | [[d [e [-> Hn]]] | [[d [e [-> [Hn Hl]]]] | [d [names [-> [Hn Hl]]]]]]].
  - destruct (test_database_none getenv) as [Hd [Hc _]]. rewrite Hd, Hc.
    split; [discriminate |]. split; [simpl; lia |]. split.
    + split; [discriminate | intros [d [H _]]; discriminate].
    + intros d e H. discriminate.
  - destruct (test_database_name_raises d e getenv Hn) as [Hd [Hc _]].
    rewrite Hd, Hc.
    split; [simpl; discriminate |]. split.
    { pose proof (firstn_le_length 50 e) as Hle.
      set (t := firstn 50 e) in *. clearbody t.
      rewrite !length_app. simpl. lia. }
    split.
    + split; [discriminate |].
      intros [d' [H Hn']]. inversion H; subst d'. now elim (Hn' e).
    + intros d' e' H Hn'. inversion H; subst d'. now elim (Hn' e).
  - destruct (test_database_listing_raises d e getenv Hn Hl) as [Hd [Hc _]].
    rewrite Hd, Hc.
    split; [simpl; discriminate |]. split.
    { pose proof (firstn_le_length 50 e) as Hle.
      set (t := firstn 50 e) in *. clearbody t.
      rewrite !length_app. simpl. lia. }
    split.
    + split; [intros _; now exists d | reflexivity].
    + intros d' e' H _ Hl'. inversion H; subst d'. congruence.
  - destruct (test_database_working d names getenv Hn Hl) as [Hd [Hc _]].
    rewrite Hd, Hc.
    split; [discriminate |]. split; [simpl; lia |]. split.
    + split; [intros _; now exists d | reflexivity].
    + intros d' e' H _ Hl'. inversion H; subst d'. congruence.
Qed.

Lemma diagnostic_database_message_witness :
  Diagnostic.database
    (test_database
       (Some (Database.mk Database.Missing
                (inl (Unicode.of_string
                        "ServerSelectionTimeoutError: localhost:27017: [Errno 111] Connection refused"))))
       (fun _ => None))
  = Unicode.warning_sign ++ Unicode.of_string "  Connected but Error: "
      ++ Unicode.of_string "ServerSelectionTimeoutError: localhost:27017: [Err".
Proof.
  apply (proj2 (proj2 (proj2 (diagnostic_database_message
           (Some (Database.mk Database.Missing
                    (inl (Unicode.of_string
                            "ServerSelectionTimeoutError: localhost:27017: [Errno 111] Connection refused"))))
           (fun _ => None))))
           (Database.mk Database.Missing
              (inl (Unicode.of_string
                      "ServerSelectionTimeoutError: localhost:27017: [Errno 111] Connection refused")))
           (Unicode.of_string
              "ServerSelectionTimeoutError: localhost:27017: [Errno 111] Connection refused")).
  - reflexivity.
  - intros e. discriminate.
  - reflexivity.
Defined.

(** ** Registrations *)

Section UsersMore.

Lemma handle_users (r : Request) (db : Store) :
  db_user (handle db r)
  = db_user db ++
    match r with
    | RegisterUser user => [(fresh_oid db, user)]
    | _ => []
    end.
Proof.
  destruct r as [user | now payload | now payload | now payload | user_id];
    cbn [handle].
  - reflexivity.
  - rewrite app_nil_r.
    destruct (Session.duration_ok (StartSessionRequest.duration_minutes payload))
      eqn:E.
    + now rewrite (start_session_accepts _ _ _ E).
    + now rewrite (start_session_rejects _ _ _ E).
  - rewrite app_nil_r.
    destruct (ObjectId_of_str (UpdateActivityRequest.session_id payload))
      as [e | oid] eqn:Eo.
    + now rewrite (update_activity_invalid _ _ _ _ Eo).
    + destruct (List.find (has_id oid) (db_session db)) as [sdoc |] eqn:Ef.
      * now rewrite (update_activity_found _ _ _ _ _ Eo Ef).
      * now rewrite (update_activity_missing _ _ _ _ Eo Ef).
  - rewrite app_nil_r.
    destruct (ObjectId_of_str (EndSessionRequest.session_id payload))
      as [e | oid] eqn:Eo.
    + now rewrite (end_session_invalid _ _ _ _ Eo).
    + destruct (List.find (has_id oid) (db_session db)) as [sdoc |] eqn:Ef.
      * now rewrite (end_session_found _ _ _ _ _ Eo Ef).
      * now rewrite (end_session_missing _ _ _ _ Eo Ef).
  - now rewrite app_nil_r.
Qed.

End UsersMore.

(** X23.  Only [register_user] writes to the user collection, and it
    always does: after any sequence of requests the users that were there
    are still there, unchanged and in order, followed by one document per
    registration of the sequence, holding the payloads as given and in the
    order of the requests.  No registration is refused or merged, also
    not for a device_id registered before. *)
Theorem users_are_the_registrations :
  forall (reqs : list Request) (db : Store),
    exists more,
      db_user (run reqs db) = db_user db ++ more /\
      map snd more = registrations reqs.
Proof.
  induction reqs as [|r reqs IH]; intros db; simpl.
  - exists []. now rewrite app_nil_r.
  - destruct (IH (handle db r)) as [more [Hrun Hmore]].
    rewrite Hrun, handle_users, <- app_assoc.
    eexists. split; [reflexivity |].
    rewrite map_app, Hmore. now destruct r.
Qed.
